(** * Resume analyzer: the structured-result extractor, the score display,
      the remote analysis wrappers and the report layout of [app.py].

    Python text is modelled as [string]: the sequence of the bytes of its
    UTF-8 encoding.  Braces, quotes, digits and JSON white space are ASCII,
    so every position the program looks for falls on a byte that is a whole
    character.  A Python call either returns or raises: [outcome]. *)

From Stdlib Require Import String Ascii List ZArith QArith Lia Bool.
From Stdlib Require Import Floats.SpecFloat Numbers.DecimalString.
Import ListNotations.
Set Warnings "-register-all".
Local Open Scope string_scope.
Local Open Scope Z_scope.

(** ** Outcomes of Python calls *)

Inductive exn : Type :=
| TypeError
| ValueError
| AttributeError
| IndexError
| OverflowError
| RecursionError
| JSONDecodeError
| ClientError (detail : string).

Inductive outcome (A : Type) : Type :=
| Ret (a : A)
| Raise (e : exn).
Arguments Ret {A} a.
Arguments Raise {A} e.

Definition bind {A B} (m : outcome A) (k : A -> outcome B) : outcome B :=
  match m with
  | Ret a => k a
  | Raise e => Raise e
  end.

(** [try: m  except: h] with a bare [except], which catches everything. *)
Definition try_except {A} (m : outcome A) (h : outcome A) : outcome A :=
  match m with
  | Ret a => Ret a
  | Raise _ => h
  end.

Declare Scope py_scope.
Delimit Scope py_scope with py.
Notation "x <- m ;; k" := (bind m (fun x => k))
  (at level 61, m at next level, right associativity) : py_scope.
Notation "' p <- m ;; k" := (bind m (fun z => match z with p => k end))
  (at level 61, p pattern, m at next level, right associativity) : py_scope.

(** ** Python values *)

Inductive value : Type :=
| VNone
| VBool (b : bool)
| VInt (z : Z)
| VFloat (f : spec_float)
| VStr (s : string)
| VList (items : list value)
| VDict (entries : list (string * value)).

(** A dict keeps its keys in insertion order; [VDict] lists the entries in
    that order, one per key. *)
Fixpoint dict_lookup (entries : list (string * value)) (k : string) : option value :=
  match entries with
  | [] => None
  | (k', v) :: rest => if String.eqb k' k then Some v else dict_lookup rest k
  end.

(** [d[k] = v]: replaces the value in place, or appends a new key. *)
Fixpoint dict_set (entries : list (string * value)) (k : string) (v : value)
  : list (string * value) :=
  match entries with
  | [] => [(k, v)]
  | (k', v') :: rest =>
      if String.eqb k' k then (k', v) :: rest else (k', v') :: dict_set rest k v
  end.

(** [obj.get(k, default)]; only a dict has the method. *)
Definition py_get (obj : value) (k : string) (default : value) : outcome value :=
  match obj with
  | VDict entries =>
      match dict_lookup entries k with
      | Some v => Ret v
      | None => Ret default
      end
  | _ => Raise AttributeError
  end.

(** Truth value, as [or], [if] and [not] take it. *)
Definition truthy (v : value) : bool :=
  match v with
  | VNone => false
  | VBool b => b
  | VInt z => negb (z =? 0)
  | VFloat (S754_zero _) => false
  | VFloat _ => true
  | VStr s => negb (String.eqb s "")
  | VList l => match l with [] => false | _ => true end
  | VDict l => match l with [] => false | _ => true end
  end.

(** [a or b] *)
Definition py_or (a b : value) : value := if truthy a then a else b.

(** ** Regular expressions: the fragment of [re] the program uses

    A pattern is a sequence of items, each one character atom or a greedy
    starred atom.  The matcher is the backtracking one of [re]: it tries the
    longest repetition first and gives characters back one at a time. *)

Inductive atom : Type :=
| Lit (c : ascii)        (* an escaped literal, as in \{ *)
| AnyChar.               (* the class [\s\S] *)

Inductive item : Type :=
| One (a : atom)
| Star (a : atom).

Definition regex := list item.

Definition accepts (a : atom) (c : ascii) : bool :=
  match a with
  | Lit d => Ascii.eqb c d
  | AnyChar => true
  end.

(** [match_here r s]: the length of the match of [r] anchored at the start
    of [s], if there is one. *)
Fixpoint match_here (r : regex) (s : string) : option nat :=
  match r with
  | [] => Some O
  | One a :: r' =>
      match s with
      | String c s' => if accepts a c then option_map S (match_here r' s') else None
      | EmptyString => None
      end
  | Star a :: r' =>
      (fix star (s : string) : option nat :=
         match s with
         | String c s' =>
             if accepts a c then
               match star s' with
               | Some n => Some (S n)
               | None => match_here r' s
               end
             else match_here r' s
         | EmptyString => match_here r' s
         end) s
  end.

(** [re.search]: the match at the leftmost position that has one, as
    (start, length). *)
Fixpoint search_from (r : regex) (s : string) (pos : nat) : option (nat * nat) :=
  match match_here r s with
  | Some n => Some (pos, n)
  | None =>
      match s with
      | String _ s' => search_from r s' (S pos)
      | EmptyString => None
      end
  end.

Definition re_search (r : regex) (s : string) : option (nat * nat) :=
  search_from r s O.

(** [match.group()] *)
Definition group (s : string) (m : nat * nat) : string :=
  substring (fst m) (snd m) s.

Definition lbrace : ascii := "{"%char.
Definition rbrace : ascii := "}"%char.

(** The pattern [\{[\s\S]*\}] of [extract_json]. *)
Definition brace_pattern : regex := [One (Lit lbrace); Star AnyChar; One (Lit rbrace)].

(** ** The span in the words of the specification: from the first opening
    brace of the text to the last closing brace of the text. *)

Fixpoint find_first (c : ascii) (s : string) : option nat :=
  match s with
  | EmptyString => None
  | String d s' => if Ascii.eqb d c then Some O else option_map S (find_first c s')
  end.

Fixpoint find_last (c : ascii) (s : string) : option nat :=
  match s with
  | EmptyString => None
  | String d s' =>
      match find_last c s' with
      | Some j => Some (S j)
      | None => if Ascii.eqb d c then Some O else None
      end
  end.

Definition first_to_last_brace_span (s : string) : option (nat * nat) :=
  match find_first lbrace s, find_last rbrace s with
  | Some i, Some j => if Nat.ltb i j then Some (i, S (j - i)) else None
  | _, _ => None
  end.

(** ** Conversions and formatting of the Python runtime *)

(** What the program takes from the interpreter and its libraries without
    defining it: the JSON decoder, [int] of a string, and [repr] of floats and
    of strings.  [ReferenceRuntime] below gives them a definition. *)
Class Runtime : Type := {
  json_loads : string -> outcome value;
  int_of_str : string -> outcome Z;
  repr_float : spec_float -> string;
  repr_str : string -> string
}.

(** A decoding of a text that opens with a brace is a dict: in JSON only an
    object starts with one. *)
Definition decodes_objects (RT : Runtime) : Prop :=
  forall s v, json_loads (String lbrace s) = Ret v -> exists entries, v = VDict entries.

Definition nl : string := String (ascii_of_nat 10) "".

(** Writes a text that holds double quotes with apostrophes in their place. *)
Fixpoint dquote (s : string) : string :=
  match s with
  | EmptyString => EmptyString
  | String c s' =>
      String (if Ascii.eqb c "'"%char then ascii_of_nat 34 else c) (dquote s')
  end.

Definition decimal (z : Z) : string := NilZero.string_of_int (Z.to_int z).

(** [int(f)] of a float: the integer towards zero. *)
Definition float_trunc (f : spec_float) : outcome Z :=
  match f with
  | S754_zero _ => Ret 0
  | S754_infinity _ => Raise OverflowError
  | S754_nan => Raise ValueError
  | S754_finite s m e =>
      let a := Z.shiftl (Zpos m) e in
      Ret (if s then - a else a)
  end.

(** Python's [min] and [max] of two arguments return the first one unless
    the second is strictly smaller, respectively larger. *)
Definition py_min (a b : Z) : Z := if b <? a then b else a.
Definition py_max (a b : Z) : Z := if a <? b then b else a.

(** The characters of a text: each byte that is not a UTF-8 continuation
    byte starts one. *)
Definition is_continuation (c : ascii) : bool :=
  let n := nat_of_ascii c in (Nat.leb 128 n && Nat.ltb n 192)%bool.

Fixpoint utf8_chars (s : string) : list string :=
  match s with
  | EmptyString => []
  | String c s' =>
      match utf8_chars s' with
      | (String d _ as nxt) :: rest =>
          if is_continuation d then String c nxt :: rest
          else String c "" :: nxt :: rest
      | l => String c "" :: l
      end
  end.

(** What a [for] loop or [join] iterates over. *)
Definition py_iter (v : value) : outcome (list value) :=
  match v with
  | VList l => Ret l
  | VStr s => Ret (map VStr (utf8_chars s))
  | VDict entries => Ret (map (fun kv => VStr (fst kv)) entries)
  | _ => Raise TypeError
  end.

Fixpoint strings_of (l : list value) : outcome (list string) :=
  match l with
  | [] => Ret []
  | VStr s :: rest =>
      match strings_of rest with
      | Ret ss => Ret (s :: ss)
      | Raise e => Raise e
      end
  | _ :: _ => Raise TypeError
  end.

(** [sep.join(v)] *)
Definition py_join (sep : string) (v : value) : outcome string :=
  bind (py_iter v) (fun l => bind (strings_of l) (fun ss => Ret (String.concat sep ss))).

Section WithRuntime.
Context {RT : Runtime}.

(** [int(v)] *)
Definition py_int (v : value) : outcome Z :=
  match v with
  | VInt z => Ret z
  | VBool b => Ret (if b then 1 else 0)
  | VFloat f => float_trunc f
  | VStr s => int_of_str s
  | VNone | VList _ | VDict _ => Raise TypeError
  end.

Fixpoint py_repr (v : value) : string :=
  match v with
  | VNone => "None"
  | VBool b => if b then "True" else "False"
  | VInt z => decimal z
  | VFloat f => repr_float f
  | VStr s => repr_str s
  | VList l => "[" ++ String.concat ", " (map py_repr l) ++ "]"
  | VDict entries =>
      "{" ++ String.concat ", "
               (map (fun kv => repr_str (fst kv) ++ ": " ++ py_repr (snd kv)) entries)
          ++ "}"
  end.

(** A value inside an f-string. *)
Definition py_format (v : value) : string :=
  match v with
  | VStr s => s
  | _ => py_repr v
  end.

(** ** [extract_json] *)

Definition extract_json (text : value) : outcome value :=
  try_except
    (match text with
     | VStr s =>
         match re_search brace_pattern s with
         | Some m => json_loads (group s m)
         | None => Ret VNone
         end
     | _ => Raise TypeError
     end)
    (Ret VNone).

(** ** The report layout of [generate_pdf_report] *)

Inductive style : Type := Heading1 | Heading3 | Normal.

Inductive flowable : Type :=
| Paragraph (text : string) (sty : style)
| Spacer (width height : Z).

(** [for x in l: body], the body threading the state it updates. *)
Fixpoint for_each {A S : Type} (l : list A) (body : A -> S -> outcome S) (st : S)
  : outcome S :=
  match l with
  | [] => Ret st
  | x :: rest => bind (body x st) (for_each rest body)
  end.

(** [s.replace(old, new)] for one-character [old] and [new]. *)
Fixpoint replace_char (old new : ascii) (s : string) : string :=
  match s with
  | EmptyString => EmptyString
  | String c s' => String (if Ascii.eqb c old then new else c) (replace_char old new s')
  end.

Definition is_lower (c : ascii) : bool :=
  let n := nat_of_ascii c in (Nat.leb 97 n && Nat.leb n 122)%bool.
Definition is_upper (c : ascii) : bool :=
  let n := nat_of_ascii c in (Nat.leb 65 n && Nat.leb n 90)%bool.
Definition to_upper (c : ascii) : ascii :=
  if is_lower c then ascii_of_nat (nat_of_ascii c - 32) else c.
Definition to_lower (c : ascii) : ascii :=
  if is_upper c then ascii_of_nat (nat_of_ascii c + 32) else c.

(** [s.title()] on ASCII text: a letter that follows a letter is lowered,
    any other letter is raised.  [in_word] tells whether the previous
    character was a letter. *)
Fixpoint title_from (in_word : bool) (s : string) : string :=
  match s with
  | EmptyString => EmptyString
  | String c s' =>
      let letter := (is_lower c || is_upper c)%bool in
      String (if letter then (if in_word then to_lower c else to_upper c) else c)
             (title_from letter s')
  end.

Definition title (s : string) : string := title_from false s.

Definition report_sections : list string :=
  ["skills_found"; "skills_missing"; "strengths"; "weaknesses"; "improvements"].

(** The story the function hands to [doc.build]: every [story.append] in
    program order. *)
Definition report_story (data : value) : outcome (list flowable) :=
  let story := [] in
  let story := (story ++ [Paragraph "ATS Resume Analysis Report" Heading1])%list in
  let story := (story ++ [Spacer 1 10])%list in
  bind (py_get data "ats_score" (VInt 0)) (fun score =>
  let story :=
    (story ++ [Paragraph ("ATS Score: " ++ py_format score ++ "%") Normal])%list in
  let story := (story ++ [Spacer 1 10])%list in
  for_each report_sections
    (fun section story =>
       let story :=
         (story ++ [Paragraph (title (replace_char "_" " " section)) Heading3])%list in
       bind (py_get data section (VList [])) (fun v =>
       bind (py_iter v) (fun items =>
       bind (for_each items
               (fun item story =>
                  Ret (story ++ [Paragraph ("- " ++ py_format item) Normal])%list)
               story) (fun story =>
       Ret (story ++ [Spacer 1 8])%list))))
    story).

(** ** The remote analysis client *)

Record message : Type := { role : string; content : string }.

Record request : Type := {
  model : string;
  messages : list message;
  temperature : Q
}.

(** A completion, as far as the program reads it: the content of the message
    of each choice, which the service may leave empty ([None]). *)
Record completion : Type := { choices : list (option string) }.

Section WithServices.
(** [groq_client.chat.completions.create]: the hosted model. *)
Variable create : request -> outcome completion.
(** [pdf2image] and [pytesseract]: the recognized text of the uploaded bytes. *)
Variable recognize_text : string -> outcome string.
(** [doc.build(story)] of reportlab, then the bytes of the file it wrote. *)
Variable build_document : list flowable -> outcome string.

Definition safe_groq_call (msgs : list message) (temp : Q) : outcome value :=
  bind (create {| model := "llama-3.3-70b-versatile";
                  messages := msgs;
                  temperature := temp |})
       (fun response =>
          match choices response with
          | [] => Raise IndexError
          | c :: _ => Ret (match c with Some s => VStr s | None => VNone end)
          end).

Definition resume_and_jd (resume_text jd_text : string) : string :=
  nl ++ "Resume:" ++ nl ++ resume_text ++ nl ++ nl ++
  "Job Description:" ++ nl ++ jd_text ++ nl.

Definition full_analysis_system_prompt : string :=
  "Return ONLY JSON:" ++ nl ++
  dquote ("{" ++
          "'ats_score':0," ++
          "'ats_summary':''," ++
          "'improvements':[]," ++
          "'skills_found':[]," ++
          "'skills_missing':[]," ++
          "'strengths':[]," ++
          "'weaknesses':[]," ++
          "'resume_rewrite':''" ++
          "}").

Definition groq_full_analysis (resume_text jd_text : string) : outcome value :=
  let system_prompt := full_analysis_system_prompt in
  let user_prompt := resume_and_jd resume_text jd_text in
  try_except
    (bind (safe_groq_call [ {| role := "system"; content := system_prompt |};
                            {| role := "user"; content := user_prompt |} ]
                          (5 # 100))
          (fun raw => bind (extract_json raw) (fun r => Ret (py_or r (VDict [])))))
    (Ret (VDict [])).

Definition groq_summary (resume_text jd_text : string) : outcome value :=
  let prompt :=
    nl ++ "Write one paragraph comparing resume and job description." ++ nl ++ nl ++
    "Resume:" ++ nl ++ resume_text ++ nl ++ nl ++
    "Job Description:" ++ nl ++ jd_text ++ nl in
  safe_groq_call [ {| role := "user"; content := prompt |} ] (3 # 10).

Definition groq_ats_explanation (resume_text jd_text : string) (score : Z)
  : outcome value :=
  let prompt :=
    nl ++ "Explain why ATS score is " ++ decimal score ++ "% in simple English." ++
    nl ++ nl ++
    "Resume:" ++ nl ++ resume_text ++ nl ++ nl ++
    "Job Description:" ++ nl ++ jd_text ++ nl in
  safe_groq_call [ {| role := "user"; content := prompt |} ] (2 # 10).

Definition career_system_prompt : string :=
  "Return ONLY JSON with keys: " ++
  "recommended_roles (list), why_fit (string), " ++
  "skills_to_improve (list), resume_upgrade_tips (list)".

Definition groq_career_recommendation (resume_text jd_text : string) : outcome value :=
  let system_prompt := career_system_prompt in
  let user_prompt := resume_and_jd resume_text jd_text in
  try_except
    (bind (safe_groq_call [ {| role := "system"; content := system_prompt |};
                            {| role := "user"; content := user_prompt |} ]
                          (5 # 100))
          (fun raw => bind (extract_json raw) (fun r => Ret (py_or r (VDict [])))))
    (Ret (VDict [])).


Definition generate_pdf_report (data : value) : outcome string :=
  bind (report_story data) build_document.

(** ** The page: what the "Analyze" action displays

    Each Streamlit call is recorded, in program order, as an event of the
    page; an exception leaves on the page what was displayed before it. *)

Inductive payload : Type :=
| Text (v : value)
| Bytes (b : string).

Inductive ui_event : Type :=
| StSubheader (body : string)
| StProgress (v : Z)
| StMarkdown (body : string)
| StInfo (body : value)
| StSuccess (body : value)
| StError (body : value)
| StWarning (body : value)
| StExpanderOpen (label : string) (expanded : bool)
| StExpanderClose
| StTextArea (label : string) (v : value) (height : Z)
| StDownloadButton (label : string) (data : payload) (file_name : string).

Definition ui (A : Type) : Type := list ui_event -> outcome A * list ui_event.

Definition ui_ret {A} (a : A) : ui A := fun page => (Ret a, page).

Definition ui_bind {A B} (m : ui A) (k : A -> ui B) : ui B :=
  fun page =>
    match m page with
    | (Ret a, page') => k a page'
    | (Raise e, page') => (Raise e, page')
    end.

Definition call {A} (m : outcome A) : ui A := fun page => (m, page).

Definition show (e : ui_event) : ui unit := fun page => (Ret tt, (page ++ [e])%list).

(** [with st.expander(label, expanded=...): body]; the block is left also
    when the body raises. *)
Definition expander {A} (label : string) (expanded : bool) (body : ui A) : ui A :=
  fun page =>
    let (r, page') := body (page ++ [StExpanderOpen label expanded])%list in
    (r, (page' ++ [StExpanderClose])%list).

Fixpoint ui_for_each {A} (l : list A) (body : A -> ui unit) : ui unit :=
  match l with
  | [] => ui_ret tt
  | x :: rest => ui_bind (body x) (fun _ => ui_for_each rest body)
  end.

Declare Scope ui_scope.
Delimit Scope ui_scope with ui.
Notation "x <- m ;; k" := (ui_bind m (fun x => k))
  (at level 61, m at next level, right associativity) : ui_scope.
Notation "m ;; k" := (ui_bind m (fun _ => k))
  (at level 61, right associativity) : ui_scope.

(** Line 160: the displayed score. *)
Definition displayed_score (ats : value) : outcome Z :=
  bind (py_get ats "ats_score" (VInt 0)) (fun v =>
  bind (py_int v) (fun n =>
  Ret (py_max 0 (py_min 100 n)))).

(** Lines 162-167. *)
Definition rating (score : Z) : string :=
  if 85 <=? score then "🌟 Excellent Match"
  else if 70 <=? score then "✅ Strong Match"
  else if 50 <=? score then "⚠ Average Match"
  else "❌ Weak Match".

(** Lines 196-209: the career recommendations. *)
Definition show_career (career : value) : ui unit :=
  (expander "🎯 AI Career Fit Recommendations" true
     (show (StSubheader "Recommended Roles");;
      roles <- call (bind (py_get career "recommended_roles" (VList [])) py_iter);;
      ui_for_each roles (fun r => show (StSuccess r));;
      show (StSubheader "Why you fit");;
      why <- call (py_get career "why_fit" (VStr ""));;
      show (StInfo why);;
      show (StSubheader "Skills to improve");;
      skills <- call (bind (py_get career "skills_to_improve" (VList [])) py_iter);;
      ui_for_each skills (fun s => show (StWarning s));;
      show (StSubheader "Resume upgrade tips");;
      tips <- call (bind (py_get career "resume_upgrade_tips" (VList [])) py_iter);;
      ui_for_each tips (fun t => show (StInfo t))))%ui.

(** Lines 160-212: everything after the full analysis has returned [ats]. *)
Definition show_analysis (resume_text jd_text : string) (ats : value) : ui unit :=
  (score <- call (displayed_score ats);;
   let rating := rating score in
   show (StSubheader "🧠 ATS Score");;
   show (StProgress score);;
   show (StMarkdown (decimal score ++ "% — " ++ rating));;
   show (StSubheader "📌 ATS Score Explanation");;
   explanation <- call (groq_ats_explanation resume_text jd_text score);;
   show (StInfo explanation);;
   show (StSubheader "📝 AI Summary");;
   summary <- call (groq_summary resume_text jd_text);;
   show (StInfo summary);;
   expander "✔ Skills / ❌ Missing / 💪 Strengths / ⚠ Weaknesses" true
     (found <- call (bind (py_get ats "skills_found" (VList [])) (py_join ", "));;
      show (StSuccess (VStr ("Skills Found: " ++ found)));;
      missing <- call (bind (py_get ats "skills_missing" (VList [])) (py_join ", "));;
      show (StError (VStr ("Missing Skills: " ++ missing)));;
      show (StSubheader "Strengths");;
      strengths <- call (bind (py_get ats "strengths" (VList [])) py_iter);;
      ui_for_each strengths (fun s => show (StSuccess s));;
      show (StSubheader "Weaknesses");;
      weaknesses <- call (bind (py_get ats "weaknesses" (VList [])) py_iter);;
      ui_for_each weaknesses (fun w => show (StWarning w)));;
   expander "✍ AI Resume Rewrite (ATS-friendly)" false
     (rewrite <- call (py_get ats "resume_rewrite" (VStr ""));;
      show (StTextArea "Rewritten Resume" rewrite 300);;
      show (StDownloadButton "Download Rewritten Resume" (Text rewrite)
                             "rewritten_resume.txt"));;
   career <- call (groq_career_recommendation resume_text jd_text);;
   show_career career;;
   pdf <- call (generate_pdf_report ats);;
   show (StDownloadButton "📥 Download ATS PDF Report" (Bytes pdf) "ATS_Report.pdf"))%ui.

(** Lines 157-212: the branch taken when a resume and a job description
    were given. *)
Definition analyze_resume (uploaded_file jd_text : string) : ui unit :=
  (resume_text <- call (recognize_text uploaded_file);;
   ats <- call (groq_full_analysis resume_text jd_text);;
   show_analysis resume_text jd_text ats)%ui.

End WithServices.
End WithRuntime.

(** ** A reference runtime

    The decoder follows the scanner of CPython's [json] module (strict mode,
    default hooks); [int] of a string and [repr] of a string are given on
    ASCII text.  The interpreter's limits on recursion depth and on the
    number of digits of an integer are not modelled. *)
Module Reference.

Definition code (c : ascii) : Z := Z.of_nat (nat_of_ascii c).
Definition char_of (n : Z) : ascii := ascii_of_nat (Z.to_nat n).

Definition is_digit (c : ascii) : bool := (48 <=? code c) && (code c <=? 57).
Definition digit_value (c : ascii) : Z := code c - 48.

(** The longest prefix of digits, as its value and its length, and the rest. *)
Fixpoint take_digits (acc : Z) (count : Z) (s : string) : Z * Z * string :=
  match s with
  | String c s' =>
      if is_digit c then take_digits (10 * acc + digit_value c) (count + 1) s'
      else (acc, count, s)
  | EmptyString => (acc, count, s)
  end.

(** *** Floats: the binary64 nearest to a decimal, ties to even *)

Definition prec : Z := 53.
Definition emax : Z := 1024.

(** The float nearest to [(-1)^neg * digits * 10^exp10]. *)
Definition float_of_decimal (neg : bool) (digits : Z) (exp10 : Z) : spec_float :=
  match digits with
  | Zpos d =>
      if 0 <=? exp10 then binary_round prec emax neg (d * Z.to_pos (10 ^ exp10))%positive 0
      else SFdiv prec emax (S754_finite neg d 0)
                           (S754_finite false (Z.to_pos (10 ^ (- exp10))) 0)
  | _ => S754_zero neg
  end.

(** *** [repr] of a float: the shortest decimal that reads back as the float *)

(** [floor (num / den / 10^k)] and whether the division was exact. *)
Definition scaled_floor (num den k : Z) : Z * bool :=
  let n := if 0 <=? k then num else num * 10 ^ (- k) in
  let d := if 0 <=? k then den * 10 ^ k else den in
  (n / d, (n mod d =? 0)).

(** The position of the leading decimal digit of [num / den]. *)
Fixpoint leading_position (fuel : nat) (num den p : Z) : Z :=
  match fuel with
  | O => p
  | S fuel' =>
      let q := fst (scaled_floor num den p) in
      if q =? 0 then leading_position fuel' num den (p - 1)
      else if 10 <=? q then leading_position fuel' num den (p + 1)
      else p
  end.

Fixpoint strip_zeros (fuel : nat) (d k : Z) : Z * Z :=
  match fuel with
  | O => (d, k)
  | S fuel' => if d mod 10 =? 0 then strip_zeros fuel' (d / 10) (k + 1) else (d, k)
  end.

(** The shortest digits [d] and exponent [k] with [d * 10^k] reading back as
    [x = m * 2^e]; of two candidates of one length, the nearer to [x]. *)
Fixpoint shortest_digits (fuel : nat) (neg : bool) (x : spec_float)
    (num den p : Z) (n : Z) : Z * Z :=
  let k := p - (n - 1) in
  let '(lo, exact) := scaled_floor num den k in
  let hi := lo + 1 in
  let reads d := SFeqb (float_of_decimal false d k) (SFabs x) in
  match fuel with
  | O => (lo, k)
  | S fuel' =>
      if exact then (lo, k)
      else
        match reads lo, reads hi with
        | true, false => (lo, k)
        | false, true => (hi, k)
        | true, true =>
            (* which of lo and hi is nearer: compare 2 x with (lo + hi) 10^k *)
            let twice := fst (scaled_floor (2 * num) den k) in
            if twice <? lo + hi then (lo, k) else (hi, k)
        | false, false => shortest_digits fuel' neg x num den p (n + 1)
        end
  end.

Fixpoint zeros (n : nat) : string :=
  match n with
  | O => ""
  | S n' => String "0" (zeros n')
  end.

Definition repr_finite (neg : bool) (m : positive) (e : Z) : string :=
  let num := if 0 <=? e then Zpos m * 2 ^ e else Zpos m in
  let den := if 0 <=? e then 1 else 2 ^ (- e) in
  let p := leading_position 700 num den 0 in
  let '(d, k) := shortest_digits 17 neg (S754_finite neg m e) num den p 1 in
  let '(d, k) := strip_zeros 20 d k in
  let ds := decimal d in
  let ndigits := Z.of_nat (String.length ds) in
  let decpt := ndigits + k in
  let body :=
    if (decpt <? -3) || (16 <? decpt) then
      let ex := decpt - 1 in
      let exs := decimal (Z.abs ex) in
      substring 0 1 ds ++
      (if 1 <? ndigits then "." ++ substring 1 (String.length ds - 1) ds else "") ++
      "e" ++ (if ex <? 0 then "-" else "+") ++
      (if Z.abs ex <? 10 then "0" else "") ++ exs
    else if decpt <=? 0 then "0." ++ zeros (Z.to_nat (- decpt)) ++ ds
    else if ndigits <=? decpt then ds ++ zeros (Z.to_nat (decpt - ndigits)) ++ ".0"
    else substring 0 (Z.to_nat decpt) ds ++ "." ++
         substring (Z.to_nat decpt) (String.length ds - Z.to_nat decpt) ds in
  (if neg then "-" else "") ++ body.

Definition repr_float (x : spec_float) : string :=
  match x with
  | S754_zero neg => if neg then "-0.0" else "0.0"
  | S754_infinity neg => if neg then "-inf" else "inf"
  | S754_nan => "nan"
  | S754_finite neg m e =>
      match binary_round prec emax neg m e with
      | S754_finite neg' m' e' => repr_finite neg' m' e'
      | S754_zero neg' => if neg' then "-0.0" else "0.0"
      | S754_infinity neg' => if neg' then "-inf" else "inf"
      | S754_nan => "nan"
      end
  end.

(** *** [repr] of a string *)

Fixpoint contains (c : ascii) (s : string) : bool :=
  match s with
  | EmptyString => false
  | String d s' => Ascii.eqb d c || contains c s'
  end.

Definition hex_digit (n : Z) : ascii :=
  if n <? 10 then char_of (48 + n) else char_of (87 + n).

Definition apostrophe : ascii := "'"%char.
Definition double_quote : ascii := ascii_of_nat 34.
Definition backslash : ascii := ascii_of_nat 92.

Fixpoint repr_chars (quote : ascii) (s : string) : string :=
  match s with
  | EmptyString => EmptyString
  | String c s' =>
      let n := code c in
      (if Ascii.eqb c quote || Ascii.eqb c backslash then String backslash (String c "")
       else if n =? 9 then String backslash "t"
       else if n =? 10 then String backslash "n"
       else if n =? 13 then String backslash "r"
       else if (n <? 32) || (n =? 127) then
         String backslash (String "x" (String (hex_digit (n / 16))
                                              (String (hex_digit (n mod 16)) "")))
       else String c "")
      ++ repr_chars quote s'
  end.

Definition repr_str (s : string) : string :=
  let quote :=
    if contains apostrophe s && negb (contains double_quote s)
    then double_quote else apostrophe in
  String quote (repr_chars quote s ++ String quote "").

(** *** [int] of a string *)

Definition is_space (c : ascii) : bool :=
  let n := code c in
  ((9 <=? n) && (n <=? 13)) || ((28 <=? n) && (n <=? 32)).

Fixpoint lstrip (s : string) : string :=
  match s with
  | String c s' => if is_space c then lstrip s' else s
  | EmptyString => s
  end.

Fixpoint all_space (s : string) : bool :=
  match s with
  | String c s' => is_space c && all_space s'
  | EmptyString => true
  end.

(** Digits, single underscores between them, then only white space. *)
Fixpoint int_digits (acc : Z) (after_digit : bool) (s : string) : option Z :=
  match s with
  | EmptyString => if after_digit then Some acc else None
  | String c s' =>
      if is_digit c then int_digits (10 * acc + digit_value c) true s'
      else if Ascii.eqb c "_" then
        if after_digit then int_digits acc false s' else None
      else if is_space c && after_digit && all_space s' then Some acc
      else None
  end.

Definition int_of_str (s : string) : outcome Z :=
  let body := lstrip s in
  let '(neg, body) :=
    match body with
    | String "-" rest => (true, rest)
    | String "+" rest => (false, rest)
    | _ => (false, body)
    end in
  match int_digits 0 false body with
  | Some n => Ret (if neg then - n else n)
  | None => Raise ValueError
  end.


(** *** The JSON decoder *)

Definition is_ws (c : ascii) : bool :=
  let n := code c in (n =? 32) || (n =? 9) || (n =? 10) || (n =? 13).

Fixpoint skip_ws (s : string) : string :=
  match s with
  | String c s' => if is_ws c then skip_ws s' else s
  | EmptyString => s
  end.

Fixpoint drop (n : nat) (s : string) : string :=
  match n, s with
  | S n', String _ s' => drop n' s'
  | _, _ => s
  end.

Definition hex_value (c : ascii) : option Z :=
  let n := code c in
  if is_digit c then Some (n - 48)
  else if (97 <=? n) && (n <=? 102) then Some (n - 87)
  else if (65 <=? n) && (n <=? 70) then Some (n - 55)
  else None.

Definition hex4 (s : string) : option (Z * string) :=
  match s with
  | String a (String b (String c (String d rest))) =>
      match hex_value a, hex_value b, hex_value c, hex_value d with
      | Some x, Some y, Some z, Some w => Some (((x * 16 + y) * 16 + z) * 16 + w, rest)
      | _, _, _, _ => None
      end
  | _ => None
  end.

(** The UTF-8 bytes of a code point; a lone surrogate takes three. *)
Definition utf8_encode (cp : Z) : string :=
  if cp <? 128 then String (char_of cp) ""
  else if cp <? 2048 then
    String (char_of (192 + cp / 64)) (String (char_of (128 + cp mod 64)) "")
  else if cp <? 65536 then
    String (char_of (224 + cp / 4096))
      (String (char_of (128 + (cp / 64) mod 64)) (String (char_of (128 + cp mod 64)) ""))
  else
    String (char_of (240 + cp / 262144))
      (String (char_of (128 + (cp / 4096) mod 64))
         (String (char_of (128 + (cp / 64) mod 64))
            (String (char_of (128 + cp mod 64)) ""))).

Definition simple_escape (c : ascii) : option ascii :=
  let n := code c in
  if (n =? 34) || (n =? 92) || (n =? 47) then Some c
  else if Ascii.eqb c "b" then Some (char_of 8)
  else if Ascii.eqb c "f" then Some (char_of 12)
  else if Ascii.eqb c "n" then Some (char_of 10)
  else if Ascii.eqb c "r" then Some (char_of 13)
  else if Ascii.eqb c "t" then Some (char_of 9)
  else None.

(** After [\uXXXX] gave the high surrogate [uni]: a low surrogate escape
    that follows is joined to it. *)
Definition join_surrogate (uni : Z) (s : string) : outcome (Z * string) :=
  match s with
  | String b (String u rest) =>
      if Ascii.eqb b backslash && Ascii.eqb u "u" then
        match hex4 rest with
        | Some (uni2, rest') =>
            if (56320 <=? uni2) && (uni2 <=? 57343)
            then Ret (65536 + ((uni - 55296) * 1024 + (uni2 - 56320)), rest')
            else Ret (uni, s)
        | None => Raise JSONDecodeError
        end
      else Ret (uni, s)
  | _ => Ret (uni, s)
  end.

(** [scanstring], strict: the text after the opening quote, up to the
    closing one. *)
Fixpoint scanstring (fuel : nat) (s : string) : outcome (string * string) :=
  match fuel with
  | O => Raise RecursionError
  | S fuel' =>
      match s with
      | EmptyString => Raise JSONDecodeError
      | String c rest =>
          if Ascii.eqb c double_quote then Ret ("", rest)
          else if Ascii.eqb c backslash then
            match rest with
            | EmptyString => Raise JSONDecodeError
            | String e rest' =>
                if Ascii.eqb e "u" then
                  match hex4 rest' with
                  | None => Raise JSONDecodeError
                  | Some (uni, rest2) =>
                      bind (if (55296 <=? uni) && (uni <=? 56319)
                            then join_surrogate uni rest2 else Ret (uni, rest2))
                           (fun cr =>
                      bind (scanstring fuel' (snd cr)) (fun r =>
                      Ret (utf8_encode (fst cr) ++ fst r, snd r)))
                  end
                else
                  match simple_escape e with
                  | Some ch =>
                      bind (scanstring fuel' rest') (fun r => Ret (String ch (fst r), snd r))
                  | None => Raise JSONDecodeError
                  end
            end
          else if code c <? 32 then Raise JSONDecodeError
          else bind (scanstring fuel' rest) (fun r => Ret (String c (fst r), snd r))
      end
  end.

(** The exponent part [e], an optional sign and digits: its value and the
    rest, when it is there. *)
Definition exponent_part (s : string) : option (Z * string) :=
  match s with
  | String e r =>
      if Ascii.eqb e "e" || Ascii.eqb e "E" then
        let '(neg, r') :=
          match r with
          | String g r'' =>
              if Ascii.eqb g "-" then (true, r'')
              else if Ascii.eqb g "+" then (false, r'')
              else (false, r)
          | EmptyString => (false, r)
          end in
        match r' with
        | String d _ =>
            if is_digit d then
              let '(v, _, rest) := take_digits 0 0 r' in
              Some (if neg then - v else v, rest)
            else None
        | EmptyString => None
        end
      else None
  | EmptyString => None
  end.

(** A number: an optional minus, then [0] or digits that do not start with
    [0], then an optional fraction (a dot and digits), then an optional
    exponent.  A fraction or an exponent makes it a float. *)
Definition match_number (s : string) : outcome (value * string) :=
  let '(neg, s1) :=
    match s with
    | String c r => if Ascii.eqb c "-" then (true, r) else (false, s)
    | EmptyString => (false, s)
    end in
  match s1 with
  | String c r =>
      if is_digit c then
        let '(ip, _, r0) :=
          if Ascii.eqb c "0" then (0, 1, r) else take_digits 0 0 s1 in
        let '(digits, frac_len, r1, has_frac) :=
          match r0 with
          | String dot (String d _ as r') =>
              if Ascii.eqb dot "." && is_digit d then
                let '(v, n, rest) := take_digits ip 0 r' in (v, n, rest, true)
              else (ip, 0, r0, false)
          | _ => (ip, 0, r0, false)
          end in
        match exponent_part r1 with
        | Some (ex, r2) => Ret (VFloat (float_of_decimal neg digits (ex - frac_len)), r2)
        | None =>
            if has_frac then Ret (VFloat (float_of_decimal neg digits (- frac_len)), r1)
            else Ret (VInt (if neg then - ip else ip), r1)
        end
      else Raise JSONDecodeError
  | EmptyString => Raise JSONDecodeError
  end.

Definition scan_string (s : string) : outcome (string * string) :=
  scanstring (S (String.length s)) s.

(** [scan_once] reads one value at the start of [s]; [object_members] reads
    from a key to the closing brace, [array_items] from an item to the
    closing bracket.  Each returns what follows the value. *)
Fixpoint scan_once (fuel : nat) (s : string) : outcome (value * string) :=
  match fuel with
  | O => Raise RecursionError
  | S fuel' =>
      match s with
      | EmptyString => Raise JSONDecodeError
      | String c rest =>
          if Ascii.eqb c double_quote then
            bind (scan_string rest) (fun r => Ret (VStr (fst r), snd r))
          else if Ascii.eqb c lbrace then
            match skip_ws rest with
            | EmptyString => Raise JSONDecodeError
            | String c' rest' as members =>
                if Ascii.eqb c' rbrace then Ret (VDict [], rest')
                else object_members fuel' members []
            end
          else if Ascii.eqb c "[" then
            match skip_ws rest with
            | EmptyString => Raise JSONDecodeError
            | String c' rest' as items =>
                if Ascii.eqb c' "]" then Ret (VList [], rest')
                else array_items fuel' items []
            end
          else if prefix "null" s then Ret (VNone, drop 4 s)
          else if prefix "true" s then Ret (VBool true, drop 4 s)
          else if prefix "false" s then Ret (VBool false, drop 5 s)
          else if prefix "NaN" s then Ret (VFloat S754_nan, drop 3 s)
          else if prefix "Infinity" s then Ret (VFloat (S754_infinity false), drop 8 s)
          else if prefix "-Infinity" s then Ret (VFloat (S754_infinity true), drop 9 s)
          else match_number s
      end
  end
with object_members (fuel : nat) (s : string) (entries : list (string * value))
  : outcome (value * string) :=
  match fuel with
  | O => Raise RecursionError
  | S fuel' =>
      match s with
      | EmptyString => Raise JSONDecodeError
      | String q rest =>
          if Ascii.eqb q double_quote then
            bind (scan_string rest) (fun kr =>
            match skip_ws (snd kr) with
            | EmptyString => Raise JSONDecodeError
            | String colon r1 =>
                if Ascii.eqb colon ":" then
                  bind (scan_once fuel' (skip_ws r1)) (fun vr =>
                  let entries' := dict_set entries (fst kr) (fst vr) in
                  match skip_ws (snd vr) with
                  | EmptyString => Raise JSONDecodeError
                  | String d r2 =>
                      if Ascii.eqb d rbrace then Ret (VDict entries', r2)
                      else if Ascii.eqb d "," then object_members fuel' (skip_ws r2) entries'
                      else Raise JSONDecodeError
                  end)
                else Raise JSONDecodeError
            end)
          else Raise JSONDecodeError
      end
  end
with array_items (fuel : nat) (s : string) (items : list value)
  : outcome (value * string) :=
  match fuel with
  | O => Raise RecursionError
  | S fuel' =>
      bind (scan_once fuel' s) (fun vr =>
      let items' := (items ++ [fst vr])%list in
      match skip_ws (snd vr) with
      | EmptyString => Raise JSONDecodeError
      | String d r =>
          if Ascii.eqb d "]" then Ret (VList items', r)
          else if Ascii.eqb d "," then array_items fuel' (skip_ws r) items'
          else Raise JSONDecodeError
      end)
  end.

Definition byte_order_mark : string :=
  String (char_of 239) (String (char_of 187) (String (char_of 191) "")).

(** [json.loads] *)
Definition json_loads (s : string) : outcome value :=
  if prefix byte_order_mark s then Raise JSONDecodeError
  else
    bind (scan_once (2 * String.length s + 2) (skip_ws s)) (fun vr =>
    match skip_ws (snd vr) with
    | EmptyString => Ret (fst vr)
    | String _ _ => Raise JSONDecodeError
    end).

End Reference.

#[export] Instance ReferenceRuntime : Runtime := {|
  json_loads := Reference.json_loads;
  int_of_str := Reference.int_of_str;
  repr_float := Reference.repr_float;
  repr_str := Reference.repr_str
|}.

(** ** Notions of the specification, used to state the properties *)

(** A text holds a brace-delimited substring: an opening brace with a closing
    brace somewhere after it. *)
Definition brace_delimited (s : string) : Prop :=
  exists a b c, s = a ++ String lbrace (b ++ String rbrace c).

(** Every span (start, length) of a text of length [len], the length at
    least one. *)
Definition spans_at (len start : nat) : list (nat * nat) :=
  map (fun n => (start, S n)) (seq 0 (len - start)).

Definition spans (len : nat) : list (nat * nat) :=
  flat_map (spans_at len) (seq 0 len).

(** A text that is a well-formed JSON object from its first character, the
    opening brace, to its last, the closing brace. *)
Definition is_object_text {RT : Runtime} (t : string) : bool :=
  match String.get 0 t, String.get (String.length t - 1) t, json_loads t with
  | Some c, Some d, Ret (VDict _) => Ascii.eqb c lbrace && Ascii.eqb d rbrace
  | _, _, _ => false
  end.

(** The spans of a text that are a well-formed JSON object. *)
Definition object_spans {RT : Runtime} (s : string) : list (nat * nat) :=
  filter (fun m => is_object_text (group s m)) (spans (String.length s)).

(** The fields of the two records with their empty forms. *)
Definition analysis_empty_forms : list (string * value) :=
  [ ("ats_score", VInt 0); ("ats_summary", VStr ""); ("improvements", VList []);
    ("skills_found", VList []); ("skills_missing", VList []);
    ("strengths", VList []); ("weaknesses", VList []); ("resume_rewrite", VStr "") ].

Definition career_empty_forms : list (string * value) :=
  [ ("recommended_roles", VList []); ("why_fit", VStr "");
    ("skills_to_improve", VList []); ("resume_upgrade_tips", VList []) ].

(** The record with every field it lacks added in its empty form. *)
Fixpoint fill_missing (forms entries : list (string * value)) : list (string * value) :=
  match forms with
  | [] => entries
  | (k, v) :: rest =>
      fill_missing rest
        (match dict_lookup entries k with
         | Some _ => entries
         | None => (entries ++ [(k, v)])%list
         end)
  end.

(** The items a section of the report lists: what iterating over the field
    gives. *)
Definition field_items (data : value) (field : string) : outcome (list value) :=
  bind (py_get data field (VList [])) py_iter.


(** The score the specification displays for an integer: the integer
    brought into the range from 0 to 100. *)
Definition clamped (z : Z) : Z :=
  if z <? 0 then 0 else if 100 <? z then 100 else z.

(** Reading with the reference decoder: the outcome is not an exhausted
    fuel, and a value that was read consumed at least one character. *)
Definition consumes {A : Type} (r : outcome (A * string)) (s : string) : Prop :=
  match r with
  | Ret (_, rest) => (String.length rest < String.length s)%nat
  | Raise e => e <> RecursionError
  end.

(** A step of the page only adds events after those already displayed. *)
Definition extends {A : Type} (m : ui A) : Prop :=
  forall page, exists added, snd (m page) = (page ++ added)%list.

(** A match found [pos] characters further into the text. *)
Definition shift (pos : nat) (m : nat * nat) : nat * nat := ((pos + fst m)%nat, snd m).

(** A service that answers every request with the same text. *)
Definition answering (text : string) : request -> outcome completion :=
  fun _ => Ret {| choices := [Some text] |}.

(** A service that is down. *)
Definition failing (e : exn) : request -> outcome completion :=
  fun _ => Raise e.

(** A document builder that returns a fixed content. *)
Definition building (bytes : string) : list flowable -> outcome string :=
  fun _ => Ret bytes.

(** ** [extract_text_from_pdf] *)

Section WithRecognition.
(** A page image, as [pdf2image] hands it to [pytesseract]. *)
Variable image : Type.
(** [pdf2image.convert_from_bytes]: the pages of the document. *)
Variable convert_from_bytes : string -> outcome (list image).
(** [pytesseract.image_to_string]: the text recognized on one page. *)
Variable image_to_string : image -> outcome string.

(** The generator [image_to_string(p) for p in pages], consumed by [join]:
    page after page, stopping at the first one that raises. *)
Fixpoint recognize_pages (pages : list image) : outcome (list string) :=
  match pages with
  | [] => Ret []
  | p :: rest =>
      bind (image_to_string p) (fun text =>
      bind (recognize_pages rest) (fun texts => Ret (text :: texts)))
  end.

(** [pdf_file] is the content that [pdf_file.read()] returns. *)
Definition extract_text_from_pdf (pdf_file : string) : outcome string :=
  bind (convert_from_bytes pdf_file) (fun pages =>
  bind (recognize_pages pages) (fun texts =>
  Ret (String.concat nl texts))).

End WithRecognition.

(** ** The "Analyze" action: lines 153-212 *)

(** The characters [str.strip()] removes: those for which [str.isspace] holds. *)
Definition whitespace_code_points : list Z :=
  [ 9; 10; 11; 12; 13; 28; 29; 30; 31; 32; 133; 160; 5760;
    8192; 8193; 8194; 8195; 8196; 8197; 8198; 8199; 8200; 8201; 8202;
    8232; 8233; 8239; 8287; 12288 ].

Definition is_whitespace (ch : string) : bool :=
  existsb (fun cp => String.eqb ch (Reference.utf8_encode cp)) whitespace_code_points.

Fixpoint drop_whitespace (chars : list string) : list string :=
  match chars with
  | ch :: rest => if is_whitespace ch then drop_whitespace rest else chars
  | [] => []
  end.

(** [s.strip()] *)
Definition py_strip (s : string) : string :=
  String.concat "" (rev (drop_whitespace (rev (drop_whitespace (utf8_chars s))))).

Section WithPage.
Context {RT : Runtime}.
Variable create : request -> outcome completion.
Variable recognize_text : string -> outcome string.
Variable build_document : list flowable -> outcome string.

(** [analyze] is what the button returned, [uploaded_file] the content of the
    uploaded file if there is one, [jd_text] the text of the text area. *)
Definition on_analyze (analyze : bool) (uploaded_file : option string) (jd_text : string)
  : ui unit :=
  if analyze then
    match uploaded_file with
    | None => show (StError (VStr "Please upload resume and job description"))
    | Some file =>
        if negb (truthy (VStr (py_strip jd_text)))
        then show (StError (VStr "Please upload resume and job description"))
        else analyze_resume create recognize_text build_document file jd_text
    end
  else ui_ret tt.

End WithPage.

(** ** Further notions used to state properties *)

(** The values a [for] loop accepts. *)
Definition iterable (v : value) : bool :=
  match v with
  | VList _ | VStr _ | VDict _ => true
  | _ => false
  end.

Definition is_text (v : value) : bool :=
  match v with
  | VStr _ => true
  | _ => false
  end.

(** A field that is absent, or present with an iterable value. *)
Definition field_iterable (entries : list (string * value)) (field : string) : bool :=
  match dict_lookup entries field with
  | Some v => iterable v
  | None => true
  end.

(** The loop of [generate_pdf_report] over the sections, from the story
    built so far. *)
Definition add_sections {RT : Runtime} (data : value) (sections : list string)
    (story : list flowable) : outcome (list flowable) :=
  for_each sections
    (fun section story =>
       let story :=
         (story ++ [Paragraph (title (replace_char "_" " " section)) Heading3])%list in
       bind (py_get data section (VList [])) (fun v =>
       bind (py_iter v) (fun items =>
       bind (for_each items
               (fun item story =>
                  Ret (story ++ [Paragraph ("- " ++ py_format item) Normal])%list)
               story) (fun story =>
       Ret (story ++ [Spacer 1 8])%list))))
    story.

(** The request the full analysis sends. *)
Definition full_analysis_request (resume_text jd_text : string) : request :=
  {| model := "llama-3.3-70b-versatile";
     messages := [ {| role := "system"; content := full_analysis_system_prompt |};
                   {| role := "user"; content := resume_and_jd resume_text jd_text |} ];
     temperature := 5 # 100 |}.

(** The depth of open expanders after a sequence of events that starts at
    depth [depth]; [None] when an expander is closed that was not open. *)
Fixpoint nesting (events : list ui_event) (depth : nat) : option nat :=
  match events with
  | [] => Some depth
  | StExpanderOpen _ _ :: rest => nesting rest (S depth)
  | StExpanderClose :: rest =>
      match depth with
      | O => None
      | S d => nesting rest d
      end
  | _ :: rest => nesting rest depth
  end.

(** A step of the page adds events that leave no expander open. *)
Definition balanced {A : Type} (m : ui A) : Prop :=
  forall page, exists added,
    snd (m page) = (page ++ added)%list /\ forall d, nesting added d = Some d.

(** * Properties *)

(** ** The brace pattern matches from the first opening brace to the last
    closing brace *)

Section BraceSpan.

(** After the opening brace, the greedy star runs to the end of the text and
    gives characters back until a closing brace is the next one: the match
    ends at the last closing brace. *)
Lemma star_then_rbrace (s : string) :
  match_here [Star AnyChar; One (Lit rbrace)] s = option_map S (find_last rbrace s).
Proof.
  induction s as [|c s IH]; [reflexivity|].
  cbn [match_here accepts] in *. rewrite IH. cbn [find_last].
  destruct (find_last rbrace s) as [j|]; [reflexivity|].
  cbn [option_map]. destruct (Ascii.eqb c rbrace); reflexivity.
Qed.

Lemma match_here_brace_pattern (c : ascii) (s : string) :
  match_here brace_pattern (String c s) =
  if Ascii.eqb c lbrace then option_map S (option_map S (find_last rbrace s)) else None.
Proof.
  unfold brace_pattern.
  change (match_here (One (Lit lbrace) :: [Star AnyChar; One (Lit rbrace)]) (String c s))
    with (if accepts (Lit lbrace) c
          then option_map S (match_here [Star AnyChar; One (Lit rbrace)] s) else None).
  rewrite star_then_rbrace. reflexivity.
Qed.

Lemma search_from_span (s : string) :
  forall pos, search_from brace_pattern s pos =
              option_map (shift pos) (first_to_last_brace_span s).
Proof.
  induction s as [|c s IH]; intro pos; [reflexivity|].
  cbn [search_from]. rewrite match_here_brace_pattern, IH.
  unfold first_to_last_brace_span. cbn [find_first find_last].
  destruct (Ascii.eqb c lbrace) eqn:Hc.
  - destruct (find_last rbrace s) as [j|] eqn:Hj; cbn [option_map].
    + unfold shift. cbn. rewrite Nat.add_0_r. reflexivity.
    + apply Ascii.eqb_eq in Hc. subst c. cbn.
      destruct (find_first lbrace s); reflexivity.
  - destruct (find_first lbrace s) as [i|], (find_last rbrace s) as [j|];
      cbn [option_map]; try reflexivity.
    + change (Nat.ltb (S i) (S j)) with (Nat.ltb i j).
      destruct (Nat.ltb i j); cbn [option_map]; [|reflexivity].
      unfold shift. cbn [fst snd]. rewrite Nat.add_succ_r. reflexivity.
    + destruct (Ascii.eqb c rbrace); reflexivity.
Qed.

Lemma re_search_brace_pattern (s : string) :
  re_search brace_pattern s = first_to_last_brace_span s.
Proof.
  unfold re_search. rewrite search_from_span.
  destruct (first_to_last_brace_span s) as [[i n]|]; reflexivity.
Qed.

End BraceSpan.

(** ** Strings: facts about positions *)

Section Positions.

Lemma append_assoc (a b c : string) : (a ++ b) ++ c = a ++ (b ++ c).
Proof. induction a as [|x a IH]; cbn; [reflexivity | now rewrite IH]. Qed.

Lemma length_append (a b : string) :
  String.length (a ++ b) = (String.length a + String.length b)%nat.
Proof. induction a as [|x a IH]; cbn; [reflexivity | now rewrite IH]. Qed.

Lemma substring_skip (a b : string) (n : nat) :
  substring (String.length a) n (a ++ b) = substring 0 n b.
Proof. induction a as [|x a IH]; cbn; [reflexivity | exact IH]. Qed.

Lemma substring_prefix (a b : string) :
  substring 0 (String.length a) (a ++ b) = a.
Proof.
  induction a as [|x a IH]; cbn; [now destruct b | now rewrite IH].
Qed.

Lemma find_first_append (c : ascii) (a b : string) :
  find_first c a = None ->
  find_first c (a ++ String c b) = Some (String.length a).
Proof.
  induction a as [|x a IH]; cbn; intro H.
  - now rewrite Ascii.eqb_refl.
  - destruct (Ascii.eqb x c); [discriminate|].
    destruct (find_first c a); [discriminate|]. now rewrite IH.
Qed.

Lemma find_last_append (c : ascii) (a b : string) :
  find_last c b = None ->
  find_last c (a ++ String c b) = Some (String.length a).
Proof.
  intro H. induction a as [|x a IH]; cbn.
  - now rewrite H, Ascii.eqb_refl.
  - now rewrite IH.
Qed.

Lemma find_last_split (c : ascii) (s : string) (j : nat) :
  find_last c s = Some j -> exists a b, s = a ++ String c b.
Proof.
  revert j. induction s as [|x s IH]; cbn; intros j H; [discriminate|].
  destruct (find_last c s) as [k|] eqn:Hk.
  - destruct (IH k eq_refl) as (a & b & ->). now exists (String x a), b.
  - destruct (Ascii.eqb x c) eqn:Hx; [|discriminate].
    apply Ascii.eqb_eq in Hx. subst x. now exists "", s.
Qed.

(** A span ends where the first opening brace comes before the last closing
    brace, so the text is brace-delimited. *)
Lemma span_brace_delimited (s : string) (m : nat * nat) :
  first_to_last_brace_span s = Some m -> brace_delimited s.
Proof.
  unfold first_to_last_brace_span.
  destruct (find_first lbrace s) as [i|] eqn:Hi; [|discriminate].
  destruct (find_last rbrace s) as [j|] eqn:Hj; [|discriminate].
  destruct (Nat.ltb i j) eqn:Hlt; [|discriminate]. intros _.
  apply Nat.ltb_lt in Hlt. revert i j Hi Hj Hlt.
  induction s as [|x s IH]; cbn; intros i j Hi Hj Hlt; [discriminate|].
  destruct (find_last rbrace s) as [k|] eqn:Hk.
  - destruct (Ascii.eqb x lbrace) eqn:Hx.
    + apply Ascii.eqb_eq in Hx. subst x.
      destruct (find_last_split _ _ _ Hk) as (b & c & ->). now exists "", b, c.
    + destruct (find_first lbrace s) as [i'|]; [|discriminate].
      injection Hi as <-. injection Hj as <-.
      destruct (IH i' k eq_refl eq_refl ltac:(lia)) as (a & b & c & ->).
      now exists (String x a), b, c.
  - destruct (Ascii.eqb x rbrace); [|discriminate]. injection Hj as <-. lia.
Qed.

(** The first character of the matched span is the opening brace. *)
Lemma group_starts_with_lbrace (s : string) (m : nat * nat) :
  first_to_last_brace_span s = Some m -> exists rest, group s m = String lbrace rest.
Proof.
  unfold first_to_last_brace_span, group.
  destruct (find_first lbrace s) as [i|] eqn:Hi; [|discriminate].
  destruct (find_last rbrace s) as [j|]; [|discriminate].
  destruct (Nat.ltb i j); [|discriminate]. intros [= <-]. cbn [fst snd].
  generalize (j - i)%nat as n. revert i Hi.
  induction s as [|x s IH]; cbn; intros i Hi n; [discriminate|].
  destruct (Ascii.eqb x lbrace) eqn:Hx.
  - injection Hi as <-. apply Ascii.eqb_eq in Hx. subst x. eauto.
  - destruct (find_first lbrace s) as [i'|]; [|discriminate].
    injection Hi as <-. now apply IH.
Qed.

(** The span of an object that has no opening brace before it and no
    closing brace after it is the object. *)
Lemma span_of_embedded_object (pre mid post : string) :
  find_first lbrace pre = None -> find_last rbrace post = None ->
  let obj := String lbrace (mid ++ String rbrace "") in
  exists m, first_to_last_brace_span (pre ++ obj ++ post) = Some m /\
            group (pre ++ obj ++ post) m = obj.
Proof.
  intros Hpre Hpost obj.
  assert (E : pre ++ obj ++ post = (pre ++ String lbrace mid) ++ String rbrace post).
  { unfold obj. rewrite (append_assoc pre). cbn [append].
    now rewrite (append_assoc mid). }
  exists (String.length pre, S (S (String.length mid))). split.
  - unfold first_to_last_brace_span.
    replace (find_last rbrace (pre ++ obj ++ post))
      with (Some (String.length (pre ++ String lbrace mid)))
      by (rewrite E; symmetry; now apply find_last_append).
    unfold obj. cbn [append]. rewrite find_first_append by assumption.
    rewrite length_append. cbn [String.length].
    replace (Nat.ltb _ _) with true by (symmetry; apply Nat.ltb_lt; lia).
    do 3 f_equal. lia.
  - unfold group. cbn [fst snd]. rewrite substring_skip.
    replace (S (S (String.length mid))) with (String.length obj)
      by (unfold obj; cbn; rewrite length_append; cbn; lia).
    apply substring_prefix.
Qed.

Lemma find_last_split_none (c : ascii) (s : string) (j : nat) :
  find_last c s = Some j ->
  exists a b, s = a ++ String c b /\ find_last c b = None.
Proof.
  revert j. induction s as [|x s IH]; cbn; intros j H; [discriminate|].
  destruct (find_last c s) as [k|] eqn:Hk.
  - destruct (IH k eq_refl) as (a & b & E & Hb). exists (String x a), b.
    split; [cbn; now rewrite <- E | exact Hb].
  - destruct (Ascii.eqb x c) eqn:Hx; [|discriminate].
    apply Ascii.eqb_eq in Hx. subst x. now exists "", s.
Qed.

(** A text with a span is an object text, from an opening to a closing
    brace, after a part without opening brace and before a part without
    closing brace. *)
Lemma span_decomposition (s : string) (m : nat * nat) :
  first_to_last_brace_span s = Some m ->
  exists pre mid post,
    s = pre ++ String lbrace (mid ++ String rbrace "") ++ post /\
    find_first lbrace pre = None /\ find_last rbrace post = None.
Proof.
  unfold first_to_last_brace_span.
  destruct (find_first lbrace s) as [i|] eqn:Hi; [|discriminate].
  destruct (find_last rbrace s) as [j|] eqn:Hj; [|discriminate].
  destruct (Nat.ltb i j) eqn:Hlt; [|discriminate]. intros _.
  apply Nat.ltb_lt in Hlt.
  assert (D : exists pre mid post,
             s = pre ++ String lbrace (mid ++ String rbrace post) /\
             find_first lbrace pre = None /\ find_last rbrace post = None).
  { revert i j Hi Hj Hlt.
    induction s as [|x s IH]; cbn; intros i j Hi Hj Hlt; [discriminate|].
    destruct (find_last rbrace s) as [k|] eqn:Hk.
    - destruct (Ascii.eqb x lbrace) eqn:Hx.
      + apply Ascii.eqb_eq in Hx. subst x.
        destruct (find_last_split_none _ _ _ Hk) as (b & c & E & Hc).
        exists "", b, c. cbn. now rewrite <- E.
      + destruct (find_first lbrace s) as [i'|]; [|discriminate].
        injection Hi as <-. injection Hj as <-.
        destruct (IH i' k eq_refl eq_refl ltac:(lia)) as (a & b & c & E & Ha & Hc).
        exists (String x a), b, c. cbn. rewrite Hx, Ha, <- E. auto.
    - destruct (Ascii.eqb x rbrace); [|discriminate]. injection Hj as <-. lia. }
  destruct D as (pre & mid & post & E & Hpre & Hpost).
  exists pre, mid, post. repeat split; try assumption.
  rewrite E. cbn [append]. now rewrite (append_assoc mid).
Qed.

(** The text of the span is that object text. *)
Lemma span_is_embedded_object (s : string) (m : nat * nat) :
  first_to_last_brace_span s = Some m ->
  exists pre mid post,
    s = pre ++ group s m ++ post /\
    group s m = String lbrace (mid ++ String rbrace "") /\
    find_first lbrace pre = None /\ find_last rbrace post = None.
Proof.
  intro Hm.
  destruct (span_decomposition s m Hm) as (pre & mid & post & E & Hpre & Hpost).
  destruct (span_of_embedded_object pre mid post Hpre Hpost) as (m' & Hm' & Hg).
  cbv zeta in Hm', Hg. rewrite <- E in Hm', Hg.
  assert (m' = m) by congruence. subst m'.
  exists pre, mid, post. rewrite Hg. auto.
Qed.

Lemma find_first_before (c : ascii) (a b : string) :
  exists i, find_first c (a ++ String c b) = Some i /\ (i <= String.length a)%nat.
Proof.
  induction a as [|x a (i & Hi & Hle)]; cbn.
  - rewrite Ascii.eqb_refl. exists O. auto.
  - destruct (Ascii.eqb x c); [exists O; split; [reflexivity | lia]|].
    rewrite Hi. exists (S i). split; [reflexivity | lia].
Qed.

Lemma find_last_after (c : ascii) (a b : string) :
  exists j, find_last c (a ++ String c b) = Some j /\ (String.length a <= j)%nat.
Proof.
  induction a as [|x a (j & Hj & Hle)]; cbn.
  - destruct (find_last c b) as [k|]; [exists (S k) | exists O];
      rewrite ?Ascii.eqb_refl; split; try reflexivity; lia.
  - rewrite Hj. exists (S j). split; [reflexivity | lia].
Qed.

(** A brace-delimited text has a span. *)
Lemma brace_delimited_span (s : string) :
  brace_delimited s -> exists m, first_to_last_brace_span s = Some m.
Proof.
  intros (a & b & c & ->). unfold first_to_last_brace_span.
  destruct (find_first_before lbrace a (b ++ String rbrace c)) as (i & -> & Hi).
  assert (E : a ++ String lbrace (b ++ String rbrace c)
              = (a ++ String lbrace b) ++ String rbrace c)
    by (rewrite (append_assoc a); reflexivity).
  rewrite E.
  destruct (find_last_after rbrace (a ++ String lbrace b) c) as (j & -> & Hj).
  rewrite length_append in Hj. cbn [String.length] in Hj.
  replace (Nat.ltb i j) with true by (symmetry; apply Nat.ltb_lt; lia).
  eauto.
Qed.

End Positions.

(** ** Outcomes of [extract_json] *)

Section Extractor.
Context {RT : Runtime}.

(** What [extract_json] does with a text, in terms of the span. *)
Lemma extract_json_span (s : string) :
  extract_json (VStr s) =
  match first_to_last_brace_span s with
  | Some m => try_except (json_loads (group s m)) (Ret VNone)
  | None => Ret VNone
  end.
Proof.
  unfold extract_json. rewrite re_search_brace_pattern.
  destruct (first_to_last_brace_span s); reflexivity.
Qed.

Lemma extract_json_returns (text : value) : exists v, extract_json text = Ret v.
Proof.
  unfold extract_json, try_except.
  match goal with |- exists v, match ?m with _ => _ end = _ => destruct m end; eauto.
Qed.

(** C2. The text [extract_json] decodes is the span from the first opening
    brace of the input to its last closing brace: the match of the pattern is
    that span, the result is the decoding of that span with every failure
    turned into [None], and without such a span nothing is decoded and the
    result is [None].  The decoded text is a part of the input that starts
    with an opening brace and ends with a closing brace, with no opening
    brace anywhere before it and no closing brace anywhere after it; there is
    no span exactly when no opening brace has a closing brace after it. *)
Theorem extract_json_decodes_first_to_last_brace (s : string) :
  re_search brace_pattern s = first_to_last_brace_span s /\
  extract_json (VStr s) =
    match first_to_last_brace_span s with
    | Some m => try_except (json_loads (group s m)) (Ret VNone)
    | None => Ret VNone
    end /\
  (forall m, first_to_last_brace_span s = Some m ->
     exists before inside after,
       s = before ++ group s m ++ after /\
       group s m = String lbrace (inside ++ String rbrace "") /\
       find_first lbrace before = None /\
       find_last rbrace after = None) /\
  (first_to_last_brace_span s = None <-> ~ brace_delimited s).
Proof.
  split; [apply re_search_brace_pattern|].
  split; [apply extract_json_span|].
  split; [apply span_is_embedded_object|].
  split.
  - intros Hnone Hbd. destruct (brace_delimited_span s Hbd) as (m & Hm). congruence.
  - intro Hbd. destruct (first_to_last_brace_span s) as [m|] eqn:Hm; [|reflexivity].
    exfalso. eauto using span_brace_delimited.
Qed.

(** C3. A text without a brace-delimited substring, in particular one
    without any brace, gives [None]; so does a text whose matched span fails
    to decode; and no input at all makes [extract_json] raise. *)
Theorem extract_json_no_result_never_raises :
  (forall s, ~ brace_delimited s -> extract_json (VStr s) = Ret VNone) /\
  (forall s, find_first lbrace s = None -> find_first rbrace s = None ->
             extract_json (VStr s) = Ret VNone) /\
  (forall s m e, first_to_last_brace_span s = Some m ->
                 json_loads (group s m) = Raise e ->
                 extract_json (VStr s) = Ret VNone) /\
  (forall text, exists v, extract_json text = Ret v).
Proof.
  repeat split.
  - intros s H. rewrite extract_json_span.
    destruct (first_to_last_brace_span s) eqn:E; [|reflexivity].
    exfalso. eauto using span_brace_delimited.
  - intros s H _. rewrite extract_json_span.
    unfold first_to_last_brace_span. now rewrite H.
  - intros s m e Hm He. rewrite extract_json_span, Hm, He. reflexivity.
  - apply extract_json_returns.
Qed.

(** C1, as amended. When the text is a JSON object with no opening brace
    before it and no closing brace after it, [extract_json] returns the
    decoding of the object. *)
Theorem extract_json_embedded_object (pre mid post : string) (v : value) :
  let obj := String lbrace (mid ++ String rbrace "") in
  find_first lbrace pre = None ->
  find_last rbrace post = None ->
  json_loads obj = Ret v ->
  extract_json (VStr (pre ++ obj ++ post)) = Ret v.
Proof.
  intros obj Hpre Hpost Hv.
  destruct (span_of_embedded_object pre mid post Hpre Hpost) as (m & Hm & Hg).
  fold obj in Hm, Hg. rewrite extract_json_span, Hm, Hg, Hv. reflexivity.
Qed.

End Extractor.

(** ** The page only grows *)

Section PageGrows.

Lemma extends_call {A : Type} (m : outcome A) : extends (call m).
Proof. intro page. exists []. cbn. now rewrite app_nil_r. Qed.

Lemma extends_show (e : ui_event) : extends (show e).
Proof. intro page. now exists [e]. Qed.

Lemma extends_ret {A : Type} (a : A) : extends (ui_ret a).
Proof. intro page. exists []. cbn. now rewrite app_nil_r. Qed.

Lemma extends_bind {A B : Type} (m : ui A) (k : A -> ui B) :
  extends m -> (forall a, extends (k a)) -> extends (ui_bind m k).
Proof.
  intros Hm Hk page. unfold ui_bind.
  destruct (Hm page) as (added & Hadded).
  destruct (m page) as [[a|e] page']; cbn [snd] in Hadded; subst page'.
  - destruct (Hk a (page ++ added)%list) as (more & Hmore).
    exists (added ++ more)%list. now rewrite Hmore, app_assoc.
  - now exists added.
Qed.

Lemma extends_expander {A : Type} (label : string) (expanded : bool) (body : ui A) :
  extends body -> extends (expander label expanded body).
Proof.
  intros Hbody page. unfold expander.
  destruct (Hbody (page ++ [StExpanderOpen label expanded])%list) as (added & Hadded).
  destruct (body _) as [r page']. cbn [snd] in *. subst page'.
  exists ([StExpanderOpen label expanded] ++ added ++ [StExpanderClose])%list.
  now rewrite <- !app_assoc.
Qed.

Lemma extends_for_each {A : Type} (l : list A) (body : A -> ui unit) :
  (forall x, extends (body x)) -> extends (ui_for_each l body).
Proof.
  intro Hbody. induction l as [|x l IH]; cbn [ui_for_each].
  - apply extends_ret.
  - apply extends_bind; [apply Hbody | intros _; exact IH].
Qed.

End PageGrows.

Ltac page_grows :=
  repeat first
    [ apply extends_call | apply extends_show | apply extends_ret
    | apply extends_expander
    | apply extends_for_each; intro
    | apply extends_bind; [|intro] ].

Section ScoreOnPage.
Context {RT : Runtime}.
Variable create : request -> outcome completion.
Variable build_document : list flowable -> outcome string.

Lemma show_career_extends (career : value) : extends (show_career career).
Proof. unfold show_career. page_grows. Qed.

Lemma score_on_page (resume_text jd_text : string) (ats : value) (score : Z)
    (page : list ui_event) :
  displayed_score ats = Ret score ->
  exists later,
    snd (show_analysis create build_document resume_text jd_text ats page) =
    (page ++ [ StSubheader "🧠 ATS Score";
               StProgress score;
               StMarkdown (decimal score ++ "% — " ++ rating score) ] ++ later)%list.
Proof.
  intro Hscore. unfold show_analysis.
  unfold ui_bind at 1. unfold call at 1. rewrite Hscore.
  unfold ui_bind at 1. unfold show at 1.
  unfold ui_bind at 1. unfold show at 1.
  unfold ui_bind at 1. unfold show at 1.
  match goal with
  | |- exists later, snd (?rest ?p) = _ =>
      assert (H : extends rest) by (page_grows; apply show_career_extends);
      destruct (H p) as (later & ->)
  end.
  exists later. now rewrite <- !app_assoc.
Qed.

End ScoreOnPage.

(** ** The score and its rating *)

Section Score.
Context {RT : Runtime}.
Variable create : request -> outcome completion.
Variable build_document : list flowable -> outcome string.

Lemma py_clamp (n : Z) : py_max 0 (py_min 100 n) = clamped n.
Proof.
  unfold py_max, py_min, clamped.
  destruct (Z.ltb_spec n 100);
    repeat match goal with
           | |- context [?a <? ?b] => destruct (Z.ltb_spec a b)
           end; lia.
Qed.

(** C4. For an integer [ats_score], whatever its size, the displayed score
    is the integer clamped to the range from 0 to 100: 0 below the range, 100
    above it, the integer itself inside.  It is the value of the progress bar
    and of the score line the page shows. *)
Theorem displayed_score_clamps (ats : value) (z : Z) :
  py_get ats "ats_score" (VInt 0) = Ret (VInt z) ->
  displayed_score ats = Ret (clamped z) /\
  (z < 0 -> clamped z = 0) /\
  (100 < z -> clamped z = 100) /\
  (0 <= z <= 100 -> clamped z = z) /\
  (forall resume_text jd_text page, exists later,
     snd (show_analysis create build_document resume_text jd_text ats page) =
     (page ++ [ StSubheader "🧠 ATS Score";
                StProgress (clamped z);
                StMarkdown (decimal (clamped z) ++ "% — " ++ rating (clamped z)) ]
           ++ later)%list).
Proof.
  intro H.
  assert (Hscore : displayed_score ats = Ret (clamped z)).
  { unfold displayed_score. rewrite H. cbn [bind py_int]. now rewrite py_clamp. }
  split; [exact Hscore|].
  split; [|split; [|split]];
    try (unfold clamped; intros;
         destruct (Z.ltb_spec z 0); destruct (Z.ltb_spec 100 z); lia).
  intros resume_text jd_text page. now apply score_on_page.
Qed.

(** C5. On the scores from 0 to 100 the rating is: excellent from 85,
    strong from 70 to 84, average from 50 to 69, weak below 50. *)
Theorem rating_cases (score : Z) :
  0 <= score <= 100 ->
  (85 <= score -> rating score = "🌟 Excellent Match") /\
  (70 <= score < 85 -> rating score = "✅ Strong Match") /\
  (50 <= score < 70 -> rating score = "⚠ Average Match") /\
  (score < 50 -> rating score = "❌ Weak Match").
Proof.
  intros _. unfold rating. repeat split; intros;
    destruct (Z.leb_spec 85 score); destruct (Z.leb_spec 70 score);
    destruct (Z.leb_spec 50 score); try reflexivity; lia.
Qed.

End Score.

(** ** The remote analysis requests *)

Section Requests.
Context {RT : Runtime}.
Variable create : request -> outcome completion.

(** The two JSON requests coerce whatever the extractor gives to a dict. *)
Lemma coerced_extract_is_dict (raw : value) :
  decodes_objects RT ->
  exists entries,
    bind (extract_json raw) (fun r => Ret (py_or r (VDict []))) = Ret (VDict entries).
Proof.
  intro Hobj. destruct raw as [| | | |s| |]; try (exists []; reflexivity).
  rewrite extract_json_span.
  destruct (first_to_last_brace_span s) as [m|] eqn:Hm; [|exists []; reflexivity].
  destruct (group_starts_with_lbrace s m Hm) as (rest & Hg). rewrite Hg.
  destruct (json_loads (String lbrace rest)) as [v|e] eqn:Hv; [|exists []; reflexivity].
  destruct (Hobj rest v Hv) as (entries & ->).
  destruct entries as [|kv entries]; [exists [] | exists (kv :: entries)]; reflexivity.
Qed.

(** C9. The full analysis and the career recommendation return a dict,
    possibly empty, in every case: when the remote call raises, when the
    extractor gives [None], and when it gives a decoded object. *)
Theorem groq_json_requests_return_dict (resume_text jd_text : string) :
  decodes_objects RT ->
  (exists entries, groq_full_analysis create resume_text jd_text = Ret (VDict entries)) /\
  (exists entries,
     groq_career_recommendation create resume_text jd_text = Ret (VDict entries)).
Proof.
  intro Hobj. unfold groq_full_analysis, groq_career_recommendation. split.
  - destruct (safe_groq_call create _ _) as [raw|e]; [|exists []; reflexivity].
    destruct (coerced_extract_is_dict raw Hobj) as (entries & E).
    exists entries. cbn [bind]. now rewrite E.
  - destruct (safe_groq_call create _ _) as [raw|e]; [|exists []; reflexivity].
    destruct (coerced_extract_is_dict raw Hobj) as (entries & E).
    exists entries. cbn [bind]. now rewrite E.
Qed.


End Requests.

(** ** The report *)

Section Report.
Context {RT : Runtime}.

Lemma for_each_append_items (items : list value) (f : value -> flowable)
    (story : list flowable) :
  for_each items (fun item story => Ret (story ++ [f item])%list) story =
  Ret (story ++ map f items)%list.
Proof.
  revert story. induction items as [|x items IH]; intro story; cbn.
  - now rewrite app_nil_r.
  - rewrite IH, <- app_assoc. reflexivity.
Qed.

Lemma for_each_ext {A S : Type} (l : list A) (f g : A -> S -> outcome S) (st : S) :
  (forall x st', In x l -> f x st' = g x st') ->
  for_each l f st = for_each l g st.
Proof.
  revert st. induction l as [|x l IH]; intros st H; cbn; [reflexivity|].
  rewrite (H x st (or_introl eq_refl)).
  destruct (g x st) as [st'|e]; cbn; [|reflexivity].
  apply IH. intros y st'' Hy. apply H. now right.
Qed.


End Report.

(** ** The page *)

Section Page.
Context {RT : Runtime}.
Variable create : request -> outcome completion.
Variable build_document : list flowable -> outcome string.

Lemma dict_lookup_append (entries : list (string * value)) (k k' : string) (v : value) :
  dict_lookup (entries ++ [(k', v)]) k =
  match dict_lookup entries k with
  | Some w => Some w
  | None => if String.eqb k' k then Some v else None
  end.
Proof.
  induction entries as [|[k0 v0] entries IH]; cbn; [reflexivity|].
  destruct (String.eqb k0 k); [reflexivity | exact IH].
Qed.

Lemma dict_lookup_fill_missing (forms entries : list (string * value)) (k : string) :
  dict_lookup (fill_missing forms entries) k =
  match dict_lookup entries k with
  | Some w => Some w
  | None => dict_lookup forms k
  end.
Proof.
  revert entries. induction forms as [|[k0 v0] forms IH]; intro entries; cbn.
  - now destruct (dict_lookup entries k).
  - rewrite IH. destruct (dict_lookup entries k0) eqn:E0.
    + destruct (dict_lookup entries k) eqn:E; [reflexivity|].
      destruct (String.eqb_spec k0 k) as [->|]; [congruence | reflexivity].
    + rewrite dict_lookup_append.
      destruct (dict_lookup entries k); [reflexivity|].
      now destruct (String.eqb k0 k).
Qed.

(** Reading a field with its empty form as the default does not tell a
    record from the record with the missing fields filled in. *)
Lemma py_get_fill_missing (forms entries : list (string * value)) (k : string) (d : value) :
  dict_lookup forms k = Some d ->
  py_get (VDict (fill_missing forms entries)) k d = py_get (VDict entries) k d.
Proof.
  intro H. unfold py_get. rewrite dict_lookup_fill_missing, H.
  now destruct (dict_lookup entries k).
Qed.

Lemma report_story_fill_missing (entries : list (string * value)) :
  report_story (VDict (fill_missing analysis_empty_forms entries)) =
  report_story (VDict entries).
Proof.
  unfold report_story.
  rewrite (py_get_fill_missing analysis_empty_forms entries "ats_score") by reflexivity.
  destruct (py_get (VDict entries) "ats_score" (VInt 0)) as [score|e]; [|reflexivity].
  cbn [bind]. apply for_each_ext. intros section story Hin.
  rewrite (py_get_fill_missing analysis_empty_forms entries section); [reflexivity|].
  cbn in Hin. repeat (destruct Hin as [<-|Hin]; [reflexivity|]). contradiction.
Qed.

(** C7. Every field the page and the report read is read with its empty
    form as the default: a record displays as the record with its missing
    fields filled in with their empty forms does.  For the empty record the
    page shows the score 0 and every section empty, and nothing raises. *)
Theorem missing_fields_read_as_empty_forms
    (resume_text jd_text : string) (ats career : list (string * value)) :
  (forall page,
     show_analysis create build_document resume_text jd_text (VDict ats) page =
     show_analysis create build_document resume_text jd_text
       (VDict (fill_missing analysis_empty_forms ats)) page) /\
  (forall page,
     show_career (VDict career) page =
     show_career (VDict (fill_missing career_empty_forms career)) page) /\
  generate_pdf_report build_document (VDict ats) =
  generate_pdf_report build_document (VDict (fill_missing analysis_empty_forms ats)) /\
  (forall explanation summary pdf,
     groq_ats_explanation create resume_text jd_text 0 = Ret explanation ->
     groq_summary create resume_text jd_text = Ret summary ->
     groq_career_recommendation create resume_text jd_text = Ret (VDict []) ->
     generate_pdf_report build_document (VDict []) = Ret pdf ->
     show_analysis create build_document resume_text jd_text (VDict []) [] =
     (Ret tt,
      [ StSubheader "🧠 ATS Score";
        StProgress 0;
        StMarkdown "0% — ❌ Weak Match";
        StSubheader "📌 ATS Score Explanation";
        StInfo explanation;
        StSubheader "📝 AI Summary";
        StInfo summary;
        StExpanderOpen "✔ Skills / ❌ Missing / 💪 Strengths / ⚠ Weaknesses" true;
        StSuccess (VStr "Skills Found: ");
        StError (VStr "Missing Skills: ");
        StSubheader "Strengths";
        StSubheader "Weaknesses";
        StExpanderClose;
        StExpanderOpen "✍ AI Resume Rewrite (ATS-friendly)" false;
        StTextArea "Rewritten Resume" (VStr "") 300;
        StDownloadButton "Download Rewritten Resume" (Text (VStr ""))
                         "rewritten_resume.txt";
        StExpanderClose;
        StExpanderOpen "🎯 AI Career Fit Recommendations" true;
        StSubheader "Recommended Roles";
        StSubheader "Why you fit";
        StInfo (VStr "");
        StSubheader "Skills to improve";
        StSubheader "Resume upgrade tips";
        StExpanderClose;
        StDownloadButton "📥 Download ATS PDF Report" (Bytes pdf) "ATS_Report.pdf" ])).
Proof.
  repeat split.
  - intro page. unfold show_analysis, displayed_score, generate_pdf_report.
    rewrite report_story_fill_missing.
    rewrite !(py_get_fill_missing analysis_empty_forms ats) by reflexivity.
    reflexivity.
  - intro page. unfold show_career.
    rewrite !(py_get_fill_missing career_empty_forms career) by reflexivity.
    reflexivity.
  - unfold generate_pdf_report. now rewrite report_story_fill_missing.
  - intros explanation summary pdf He Hs Hc Hp.
    unfold show_analysis.
    change (displayed_score (VDict [])) with (@Ret Z 0).
    unfold ui_bind at 1. unfold call at 1.
    cbv beta iota zeta. 
    unfold ui_bind, call, show, expander.
    rewrite He, Hs, Hc, Hp. reflexivity.
Qed.

(** C10. When the [ats_score] field is there and [int] does not convert
    it, the score computation raises, before any clamping and with nothing
    displayed; [None] is such a value. *)
Theorem unconvertible_score_raises_before_display
    (resume_text jd_text : string) (ats v : value) (e : exn) (page : list ui_event) :
  py_get ats "ats_score" (VInt 0) = Ret v ->
  py_int v = Raise e ->
  displayed_score ats = Raise e /\
  show_analysis create build_document resume_text jd_text ats page = (Raise e, page) /\
  py_int VNone = Raise TypeError.
Proof.
  intros Hget Hint.
  assert (Hscore : displayed_score ats = Raise e).
  { unfold displayed_score. now rewrite Hget; cbn [bind]; rewrite Hint. }
  repeat split; [exact Hscore|].
  unfold show_analysis, ui_bind, call. now rewrite Hscore.
Qed.

End Page.

(** ** The reference runtime *)

Section ReferenceFacts.

Ltac split_match H :=
  repeat match type of H with
         | context [match ?x with _ => _ end] => destruct x eqn:?
         | context [if ?b then _ else _] => destruct b eqn:?
         end.

(** Whatever the members of an object are, what comes back is a dict. *)
Lemma object_members_dict (fuel : nat) :
  forall s entries v rest,
    Reference.object_members fuel s entries = Ret (v, rest) ->
    exists entries', v = VDict entries'.
Proof.
  induction fuel as [|fuel IH]; intros s entries v rest H; [discriminate|].
  cbn [Reference.object_members] in H. unfold bind in H.
  split_match H; try discriminate.
  - injection H as <- _. eauto.
  - eauto.
Qed.

Lemma reference_decodes_objects : decodes_objects ReferenceRuntime.
Proof.
  intros s v H. cbn [json_loads ReferenceRuntime] in H.
  unfold Reference.json_loads in H.
  replace (prefix Reference.byte_order_mark (String lbrace s)) with false in H
    by reflexivity.
  change (Reference.skip_ws (String lbrace s)) with (String lbrace s) in H.
  replace (2 * String.length (String lbrace s) + 2)%nat
    with (S (S (2 * String.length s + 2))) in H by (cbn [String.length]; lia).
  cbn [Reference.scan_once] in H.
  change (Ascii.eqb lbrace Reference.double_quote) with false in H.
  change (Ascii.eqb lbrace lbrace) with true in H.
  cbv iota in H. unfold bind in H.
  destruct (Reference.skip_ws s) as [|c rest] eqn:Hs; [discriminate|].
  destruct (Ascii.eqb c rbrace).
  - cbn [fst snd] in H.
    destruct (Reference.skip_ws rest); [|discriminate]. injection H as <-. eauto.
  - destruct (Reference.object_members _ _ _) as [[v' rest']|] eqn:Hm; [|discriminate].
    cbn [fst snd] in H. destruct (Reference.skip_ws rest'); [|discriminate].
    injection H as <-. eauto using object_members_dict.
Qed.

End ReferenceFacts.

(** ** The reference decoder never runs out of fuel

    The fuel bounds the depth of the recursion; twice the length of the text
    is enough, so [RecursionError] is never the outcome. *)

Section Fuel.
Import Reference.

Lemma skip_ws_length (s : string) :
  (String.length (skip_ws s) <= String.length s)%nat.
Proof.
  induction s as [|c s IH]; cbn; [lia|].
  destruct (is_ws c); cbn; lia.
Qed.

Lemma drop_length (n : nat) (s : string) :
  (String.length (drop n s) <= String.length s)%nat.
Proof.
  revert s. induction n as [|n IH]; intros [|c s]; cbn; try lia.
  specialize (IH s). lia.
Qed.

Lemma take_digits_length (s : string) :
  forall acc count v n rest,
    take_digits acc count s = (v, n, rest) ->
    (String.length rest <= String.length s)%nat.
Proof.
  induction s as [|c s IH]; cbn; intros acc count v n rest H.
  - injection H as _ _ <-. cbn. lia.
  - destruct (is_digit c).
    + apply IH in H. lia.
    + injection H as _ _ <-. cbn. lia.
Qed.

Lemma hex4_length (s : string) (u : Z) (rest : string) :
  hex4 s = Some (u, rest) -> (String.length rest < String.length s)%nat.
Proof.
  destruct s as [|a [|b [|c [|d s]]]]; cbn; try discriminate.
  destruct (hex_value a), (hex_value b), (hex_value c), (hex_value d);
    try discriminate.
  intros [= _ <-]. lia.
Qed.

Lemma join_surrogate_length (u : Z) (s : string) :
  match join_surrogate u s with
  | Ret (_, rest) => (String.length rest <= String.length s)%nat
  | Raise e => e <> RecursionError
  end.
Proof.
  unfold join_surrogate.
  destruct s as [|b [|c rest]]; cbn [String.length]; try lia.
  destruct (Ascii.eqb b backslash && Ascii.eqb c "u"); cbn [String.length]; [|lia].
  destruct (hex4 rest) as [[u2 rest']|] eqn:H; [|discriminate].
  apply hex4_length in H.
  destruct ((56320 <=? u2) && (u2 <=? 57343)); cbn [String.length]; lia.
Qed.

Lemma scanstring_consumes (fuel : nat) :
  forall s, (String.length s < fuel)%nat -> consumes (scanstring fuel s) s.
Proof.
  induction fuel as [|fuel IH]; intros s Hfuel; [lia|].
  destruct s as [|c rest]; cbn [scanstring]; [discriminate|].
  cbn [String.length] in Hfuel.
  destruct (Ascii.eqb c double_quote); [cbn; lia|].
  destruct (Ascii.eqb c backslash).
  - destruct rest as [|e rest']; [discriminate|].
    cbn [String.length] in Hfuel.
    destruct (Ascii.eqb e "u").
    + destruct (hex4 rest') as [[uni rest2]|] eqn:Hhex; [|discriminate].
      apply hex4_length in Hhex.
      assert (J : match (if (55296 <=? uni) && (uni <=? 56319)
                         then join_surrogate uni rest2 else Ret (uni, rest2)) with
                  | Ret (_, r) => (String.length r <= String.length rest2)%nat
                  | Raise e => e <> RecursionError
                  end).
      { destruct ((55296 <=? uni) && (uni <=? 56319));
          [apply join_surrogate_length | lia]. }
      destruct (if (55296 <=? uni) && (uni <=? 56319)
                then join_surrogate uni rest2 else Ret (uni, rest2))
        as [[cp r3]|e'] ; [|exact J].
      cbn [bind fst snd].
      specialize (IH r3 ltac:(lia)).
      destruct (scanstring fuel r3) as [[str r]|e']; cbn in *; [lia | exact IH].
    + destruct (simple_escape e); [|discriminate].
      specialize (IH rest' ltac:(lia)).
      destruct (scanstring fuel rest') as [[str r]|e']; cbn in *; [lia | exact IH].
  - destruct (code c <? 32); [discriminate|].
    specialize (IH rest ltac:(lia)).
    destruct (scanstring fuel rest) as [[str r]|e']; cbn in *; [lia | exact IH].
Qed.

Lemma scan_string_consumes (s : string) : consumes (scan_string s) s.
Proof. apply scanstring_consumes. lia. Qed.

Lemma exponent_part_length (s : string) (ex : Z) (rest : string) :
  exponent_part s = Some (ex, rest) -> (String.length rest <= String.length s)%nat.
Proof.
  unfold exponent_part. destruct s as [|e r]; [discriminate|].
  destruct (Ascii.eqb e "e" || Ascii.eqb e "E"); [|discriminate].
  intro H.
  assert (L : forall r' : string, (String.length r' <= String.length r)%nat ->
              match r' with
              | String d _ =>
                  if is_digit d
                  then let '(v, _, rest0) := take_digits 0 0 r' in Some (v, rest0)
                  else None
              | EmptyString => None
              end = Some (ex, rest) \/
              match r' with
              | String d _ =>
                  if is_digit d
                  then let '(v, _, rest0) := take_digits 0 0 r' in Some (- v, rest0)
                  else None
              | EmptyString => None
              end = Some (ex, rest) ->
              (String.length rest <= String.length (String e r))%nat).
  { intros r' Hr' Hm. destruct r' as [|d r'']; [destruct Hm; discriminate|].
    destruct (is_digit d); [|destruct Hm; discriminate].
    destruct (take_digits 0 0 (String d r'')) as [[v n] rest0] eqn:T.
    apply take_digits_length in T.
    destruct Hm as [Hm|Hm]; injection Hm as _ <-; cbn [String.length] in *; lia. }
  destruct r as [|g r''].
  - discriminate.
  - destruct (Ascii.eqb g "-").
    + apply (L r''); [cbn; lia | now right].
    + destruct (Ascii.eqb g "+").
      * apply (L r''); [cbn; lia | now left].
      * apply (L (String g r'')); [lia | now left].
Qed.

Lemma match_number_consumes (s : string) : consumes (match_number s) s.
Proof.
  unfold match_number.
  set (sign := match s with
               | String c r => if Ascii.eqb c "-" then (true, r) else (false, s)
               | EmptyString => (false, s)
               end).
  assert (Hsign : (String.length (snd sign) <= String.length s)%nat).
  { subst sign. destruct s as [|c r]; cbn; [lia|].
    destruct (Ascii.eqb c "-"); cbn; lia. }
  destruct sign as [neg s1]. cbn [snd] in Hsign.
  destruct s1 as [|c r]; [discriminate|].
  destruct (is_digit c) eqn:Hd; [|discriminate].
  cbn [String.length] in Hsign.
  set (whole := if Ascii.eqb c "0" then (0, 1, r) else take_digits 0 0 (String c r)).
  assert (Hwhole : (String.length (snd whole) <= String.length r)%nat).
  { subst whole. destruct (Ascii.eqb c "0"); [cbn; lia|].
    cbn [take_digits]. rewrite Hd.
    destruct (take_digits _ _ r) as [[v n] rest] eqn:T.
    apply take_digits_length in T. cbn. lia. }
  destruct whole as [[ip n0] r0]. cbn [snd] in Hwhole.
  set (frac := match r0 with
               | String dot (String d _ as r') =>
                   if Ascii.eqb dot "." && is_digit d
                   then let '(v, n, rest) := take_digits ip 0 r' in (v, n, rest, true)
                   else (ip, 0, r0, false)
               | _ => (ip, 0, r0, false)
               end).
  assert (Hfrac : (String.length (snd (fst frac)) <= String.length r0)%nat).
  { subst frac. destruct r0 as [|dot [|d r']]; cbn [fst snd]; try lia.
    destruct (Ascii.eqb dot "." && is_digit d); cbn [fst snd]; [|lia].
    destruct (take_digits ip 0 (String d r')) as [[v n] rest] eqn:T.
    apply take_digits_length in T. cbn [fst snd String.length] in *. lia. }
  destruct frac as [[[digits frac_len] r1] has_frac]. cbn [fst snd] in Hfrac.
  destruct (exponent_part r1) as [[ex r2]|] eqn:He.
  - apply exponent_part_length in He. cbn. lia.
  - destruct has_frac; cbn; lia.
Qed.

(** Reading a value, the members of an object and the items of an array
    never exhaust a fuel of twice the length of the text. *)
Lemma scan_consumes (fuel : nat) :
  (forall s, (2 * String.length s + 1 <= fuel)%nat -> consumes (scan_once fuel s) s) /\
  (forall s entries, (2 * String.length s + 2 <= fuel)%nat ->
                     s <> "" -> consumes (object_members fuel s entries) s) /\
  (forall s items, (2 * String.length s + 2 <= fuel)%nat ->
                   s <> "" -> consumes (array_items fuel s items) s).
Proof.
  induction fuel as [|fuel (IHscan & IHobj & IHarr)];
    [repeat split; intros; lia|].
  repeat split.
  - (* scan_once *)
    intros s Hfuel. destruct s as [|c rest]; [cbn; discriminate|].
    cbn [String.length] in Hfuel. cbn [scan_once].
    destruct (Ascii.eqb c double_quote).
    { pose proof (scan_string_consumes rest) as H.
      destruct (scan_string rest) as [[str r]|e]; cbn in *; [lia | exact H]. }
    destruct (Ascii.eqb c lbrace).
    { pose proof (skip_ws_length rest) as Hws.
      destruct (skip_ws rest) as [|c' rest'] eqn:E; [discriminate|].
      cbn [String.length] in Hws.
      destruct (Ascii.eqb c' rbrace); [cbn; lia|].
      specialize (IHobj (String c' rest') [] ltac:(cbn [String.length]; lia)
                        ltac:(discriminate)).
      destruct (object_members fuel (String c' rest') []) as [[v r]|e];
        cbn in *; [lia | exact IHobj]. }
    destruct (Ascii.eqb c "[").
    { pose proof (skip_ws_length rest) as Hws.
      destruct (skip_ws rest) as [|c' rest'] eqn:E; [discriminate|].
      cbn [String.length] in Hws.
      destruct (Ascii.eqb c' "]"); [cbn; lia|].
      specialize (IHarr (String c' rest') [] ltac:(cbn [String.length]; lia)
                        ltac:(discriminate)).
      destruct (array_items fuel (String c' rest') []) as [[v r]|e];
        cbn in *; [lia | exact IHarr]. }
    repeat match goal with
           | |- consumes (if prefix ?p ?t then Ret (_, drop (S ?n) (String ?c ?r)) else _) _ =>
               destruct (prefix p t);
               [ change (drop (S n) (String c r)) with (drop n r);
                 pose proof (drop_length n r);
                 unfold consumes; cbn [String.length]; lia | ]
           end.
    apply match_number_consumes.
  - (* object_members *)
    intros s entries Hfuel Hs. destruct s as [|q rest]; [congruence|].
    cbn [String.length] in Hfuel. cbn [object_members].
    destruct (Ascii.eqb q double_quote); [|discriminate].
    pose proof (scan_string_consumes rest) as Hkey.
    destruct (scan_string rest) as [[key r0]|e]; [|exact Hkey].
    cbn [consumes] in Hkey. cbn [bind fst snd].
    pose proof (skip_ws_length r0) as Hws0.
    destruct (skip_ws r0) as [|colon r1]; [discriminate|].
    cbn [String.length] in Hws0.
    destruct (Ascii.eqb colon ":"); [|discriminate].
    pose proof (skip_ws_length r1) as Hws1.
    specialize (IHscan (skip_ws r1) ltac:(lia)).
    destruct (scan_once fuel (skip_ws r1)) as [[v rv]|e]; [|exact IHscan].
    cbn [consumes] in IHscan. cbn [bind fst snd].
    pose proof (skip_ws_length rv) as Hws2.
    destruct (skip_ws rv) as [|d r2]; [discriminate|].
    cbn [String.length] in Hws2.
    destruct (Ascii.eqb d rbrace); [cbn; lia|].
    destruct (Ascii.eqb d ","); [|discriminate].
    pose proof (skip_ws_length r2) as Hws3.
    destruct (skip_ws r2) as [|c3 r3] eqn:E3.
    + destruct fuel; [cbn [String.length] in *; lia|]. cbn. discriminate.
    + specialize (IHobj (String c3 r3) (dict_set entries key v)
                        ltac:(cbn [String.length] in *; lia) ltac:(discriminate)).
      destruct (object_members fuel (String c3 r3) _) as [[v' r']|e];
        cbn [consumes String.length] in *; [lia | exact IHobj].
  - (* array_items *)
    intros s items Hfuel Hs. cbn [array_items].
    specialize (IHscan s ltac:(lia)).
    destruct (scan_once fuel s) as [[v rv]|e]; [|exact IHscan].
    cbn [consumes] in IHscan. cbn [bind fst snd].
    pose proof (skip_ws_length rv) as Hws.
    destruct (skip_ws rv) as [|d r]; [discriminate|].
    cbn [String.length] in Hws.
    destruct (Ascii.eqb d "]"); [cbn; lia|].
    destruct (Ascii.eqb d ","); [|discriminate].
    pose proof (skip_ws_length r) as Hws2.
    destruct (skip_ws r) as [|c3 r3] eqn:E3.
    + destruct fuel as [|[|fuel]]; try (cbn [String.length] in *; lia).
      cbn. discriminate.
    + specialize (IHarr (String c3 r3) (items ++ [v])%list
                        ltac:(cbn [String.length] in *; lia) ltac:(discriminate)).
      destruct (array_items fuel (String c3 r3) _) as [[v' r']|e];
        cbn [consumes String.length] in *; [lia | exact IHarr].
Qed.

(** [json.loads] of the reference runtime never raises [RecursionError]. *)
Lemma json_loads_fuel_suffices (s : string) :
  Reference.json_loads s <> Raise RecursionError.
Proof.
  unfold Reference.json_loads.
  destruct (prefix byte_order_mark s); [discriminate|].
  pose proof (skip_ws_length s) as Hws.
  pose proof (proj1 (scan_consumes (2 * String.length s + 2)) (skip_ws s) ltac:(lia)) as H.
  destruct (scan_once _ (skip_ws s)) as [[v r]|e]; cbn [bind fst snd].
  - destruct (skip_ws r); discriminate.
  - cbn in H. congruence.
Qed.

End Fuel.

(** ** The two scenarios of the specification, end to end *)

(** The model answers with prose around one object: the score is 72, the
    rating "Strong Match", the one skill found is listed. *)
Example analyze_resume_with_embedded_object :
  analyze_resume
    (answering (dquote "Here is the result: {'ats_score': 72, 'skills_found': ['SQL']}"))
    (fun _ => Ret "recognized text") (building "%PDF") "upload" "job" [] =
  (Ret tt,
   [ StSubheader "🧠 ATS Score";
     StProgress 72;
     StMarkdown "72% — ✅ Strong Match";
     StSubheader "📌 ATS Score Explanation";
     StInfo (VStr (dquote "Here is the result: {'ats_score': 72, 'skills_found': ['SQL']}"));
     StSubheader "📝 AI Summary";
     StInfo (VStr (dquote "Here is the result: {'ats_score': 72, 'skills_found': ['SQL']}"));
     StExpanderOpen "✔ Skills / ❌ Missing / 💪 Strengths / ⚠ Weaknesses" true;
     StSuccess (VStr "Skills Found: SQL");
     StError (VStr "Missing Skills: ");
     StSubheader "Strengths";
     StSubheader "Weaknesses";
     StExpanderClose;
     StExpanderOpen "✍ AI Resume Rewrite (ATS-friendly)" false;
     StTextArea "Rewritten Resume" (VStr "") 300;
     StDownloadButton "Download Rewritten Resume" (Text (VStr "")) "rewritten_resume.txt";
     StExpanderClose;
     StExpanderOpen "🎯 AI Career Fit Recommendations" true;
     StSubheader "Recommended Roles";
     StSubheader "Why you fit";
     StInfo (VStr "");
     StSubheader "Skills to improve";
     StSubheader "Resume upgrade tips";
     StExpanderClose;
     StDownloadButton "📥 Download ATS PDF Report" (Bytes "%PDF") "ATS_Report.pdf" ]).
Proof. vm_compute. reflexivity. Qed.

(** With the service down the full analysis is the empty record, the score
    0 is shown, and the explanation request then fails the run. *)
Example analyze_resume_with_service_down :
  analyze_resume (failing (ClientError "rate limit"))
    (fun _ => Ret "recognized text") (building "%PDF") "upload" "job" [] =
  (Raise (ClientError "rate limit"),
   [ StSubheader "🧠 ATS Score";
     StProgress 0;
     StMarkdown "0% — ❌ Weak Match";
     StSubheader "📌 ATS Score Explanation" ]).
Proof. vm_compute. reflexivity. Qed.

(** The reference decoder on texts the extractor meets. *)
Example json_loads_examples :
  json_loads (dquote "{'a': [1, -2, 2.5, true, null], 'a': 'x'}") = Ret (VDict [("a", VStr "x")]) /\
  json_loads (dquote "{'k': 1e2}") = Ret (VDict [("k", VFloat (S754_finite false 7036874417766400 (-46)))]) /\
  json_loads (dquote "{'a':1,}") = Raise JSONDecodeError /\
  json_loads (dquote "{'a':1} {") = Raise JSONDecodeError /\
  json_loads (dquote "{a:1}") = Raise JSONDecodeError /\
  py_format (VFloat (S754_finite false 5101733952880640 (-46))) = "72.5" /\
  py_int (VFloat (S754_finite false 5101733952880640 (-46))) = Ret 72 /\
  py_int (VStr " 72 ") = Ret 72.
Proof. repeat split; vm_compute; reflexivity. Qed.

(** ** The properties at concrete inputs *)

(** C1: a text that holds one well-formed object and a stray closing brace
    after it.  The only span that decodes to an object is the object, yet the
    extractor, matching up to the last brace, returns [None]. *)
Lemma extract_json_one_object_counterexample :
  object_spans (dquote "{'a':1} }") = [(0, 7)%nat] /\
  json_loads (group (dquote "{'a':1} }") (0, 7)%nat) = Ret (VDict [("a", VInt 1)]) /\
  extract_json (VStr (dquote "{'a':1} }")) = Ret VNone /\
  extract_json (VStr (dquote "{'a':1} }")) <>
    json_loads (group (dquote "{'a':1} }") (0, 7)%nat).
Proof.
  split; [|split; [|split]]; try (vm_compute; reflexivity).
  vm_compute. discriminate.
Qed.

Lemma extract_json_embedded_object_witness :
  extract_json
    (VStr ("Here is the result: "
           ++ String lbrace (dquote "'ats_score': 72, 'skills_found': ['SQL']"
                             ++ String rbrace "")
           ++ " extras ignored")) =
  Ret (VDict [("ats_score", VInt 72); ("skills_found", VList [VStr "SQL"])]).
Proof.
  apply (extract_json_embedded_object
           "Here is the result: "
           (dquote "'ats_score': 72, 'skills_found': ['SQL']")
           " extras ignored");
    vm_compute; reflexivity.
Defined.

Lemma extract_json_no_result_never_raises_witness :
  extract_json (VStr "I cannot compute this.") = Ret VNone /\
  extract_json (VStr (dquote "{'ats_score': }")) = Ret VNone.
Proof.
  destruct (@extract_json_no_result_never_raises ReferenceRuntime)
    as (_ & Hnone & Hfail & _).
  split.
  - apply Hnone; reflexivity.
  - apply (Hfail _ (0, 15)%nat JSONDecodeError); vm_compute; reflexivity.
Defined.

Lemma displayed_score_clamps_witness :
  displayed_score (VDict [("ats_score", VInt 150)]) = Ret 100 /\
  displayed_score (VDict [("ats_score", VInt (-10))]) = Ret 0 /\
  displayed_score (VDict [("ats_score", VInt 72)]) = Ret 72.
Proof.
  split; [|split].
  - apply (displayed_score_clamps (answering "unused") (building "%PDF")
             (VDict [("ats_score", VInt 150)]) 150 eq_refl).
  - apply (displayed_score_clamps (answering "unused") (building "%PDF")
             (VDict [("ats_score", VInt (-10))]) (-10) eq_refl).
  - apply (displayed_score_clamps (answering "unused") (building "%PDF")
             (VDict [("ats_score", VInt 72)]) 72 eq_refl).
Defined.

Lemma rating_cases_witness :
  rating 0 = "❌ Weak Match" /\
  rating 50 = "⚠ Average Match" /\
  rating 70 = "✅ Strong Match" /\
  rating 85 = "🌟 Excellent Match" /\
  rating 100 = "🌟 Excellent Match".
Proof.
  split; [|split; [|split; [|split]]].
  - apply (rating_cases 0); lia.
  - apply (rating_cases 50); lia.
  - apply (rating_cases 70); lia.
  - apply (rating_cases 85); lia.
  - apply (rating_cases 100); lia.
Defined.



Lemma groq_json_requests_return_dict_witness :
  (exists entries,
     groq_full_analysis (answering (dquote "Sure: {'ats_score': 72}")) "resume" "job"
       = Ret (VDict entries)) /\
  (exists entries,
     groq_career_recommendation (answering (dquote "Sure: {'ats_score': 72}"))
       "resume" "job" = Ret (VDict entries)).
Proof.
  apply (groq_json_requests_return_dict
           (answering (dquote "Sure: {'ats_score': 72}")) "resume" "job"
           reference_decodes_objects).
Defined.

Lemma missing_fields_read_as_empty_forms_witness :
  fst (show_analysis (answering "I cannot compute this.") (building "%PDF")
         "resume" "job" (VDict []) []) = Ret tt.
Proof.
  destruct (@missing_fields_read_as_empty_forms ReferenceRuntime
              (answering "I cannot compute this.") (building "%PDF")
              "resume" "job" [] []) as (_ & _ & _ & Hempty).
  rewrite (Hempty (VStr "I cannot compute this.") (VStr "I cannot compute this.")
             "%PDF" eq_refl eq_refl eq_refl eq_refl).
  reflexivity.
Defined.


Lemma unconvertible_score_raises_before_display_witness :
  show_analysis (answering "unused") (building "%PDF") "resume" "job"
    (VDict [("ats_score", VStr "N/A")]) [] = (Raise ValueError, []) /\
  show_analysis (answering "unused") (building "%PDF") "resume" "job"
    (VDict [("ats_score", VNone)]) [] = (Raise TypeError, []).
Proof.
  split.
  - apply (unconvertible_score_raises_before_display
             (answering "unused") (building "%PDF") "resume" "job"
             (VDict [("ats_score", VStr "N/A")]) (VStr "N/A") ValueError []);
      reflexivity.
  - apply (unconvertible_score_raises_before_display
             (answering "unused") (building "%PDF") "resume" "job"
             (VDict [("ats_score", VNone)]) VNone TypeError []);
      reflexivity.
Defined.

(** * Further properties of the program *)

(** ** The extractor *)

Section ExtractorMore.
Context {RT : Runtime}.

(** What [extract_json] returns is [None] or a dict, never another kind of
    value. *)
Theorem extract_json_none_or_dict (text v : value) :
  decodes_objects RT ->
  extract_json text = Ret v ->
  v = VNone \/ exists entries, v = VDict entries.
Proof.
  intros Hobj H. destruct text as [| | | |s| |];
    try (injection H as <-; now left).
  rewrite extract_json_span in H.
  destruct (first_to_last_brace_span s) as [m|] eqn:Hm;
    [|injection H as <-; now left].
  destruct (group_starts_with_lbrace s m Hm) as (rest & Hg). rewrite Hg in H.
  destruct (json_loads (String lbrace rest)) as [w|e] eqn:Hw;
    cbn [try_except] in H; injection H as <-; [|now left].
  right. eauto.
Qed.

Lemma find_first_append_none (c : ascii) (a b : string) :
  find_first c a = None ->
  find_first c (a ++ b) = option_map (Nat.add (String.length a)) (find_first c b).
Proof.
  induction a as [|x a IH]; cbn; intro H.
  - now destruct (find_first c b).
  - destruct (Ascii.eqb x c); [discriminate|].
    destruct (find_first c a); [discriminate|].
    rewrite IH by reflexivity. now destruct (find_first c b).
Qed.

Lemma find_first_append_some (c : ascii) (a b : string) (i : nat) :
  find_first c a = Some i -> find_first c (a ++ b) = Some i.
Proof.
  revert i. induction a as [|x a IH]; cbn; intros i H; [discriminate|].
  destruct (Ascii.eqb x c); [exact H|].
  destruct (find_first c a) as [k|]; [|discriminate].
  now rewrite (IH k eq_refl).
Qed.

Lemma find_last_append_none (c : ascii) (a b : string) :
  find_last c b = None -> find_last c (a ++ b) = find_last c a.
Proof.
  intro H. induction a as [|x a IH]; cbn; [exact H | now rewrite IH].
Qed.

Lemma find_last_append_some (c : ascii) (a b : string) (j : nat) :
  find_last c b = Some j -> find_last c (a ++ b) = Some (String.length a + j)%nat.
Proof.
  intro H. induction a as [|x a IH]; cbn; [exact H | now rewrite IH].
Qed.

Lemma find_first_bound (c : ascii) (s : string) (i : nat) :
  find_first c s = Some i -> (i < String.length s)%nat.
Proof.
  revert i. induction s as [|x s IH]; cbn; intros i H; [discriminate|].
  destruct (Ascii.eqb x c); [injection H as <-; lia|].
  destruct (find_first c s) as [k|]; [|discriminate].
  injection H as <-. specialize (IH k eq_refl). lia.
Qed.

Lemma find_last_bound (c : ascii) (s : string) (j : nat) :
  find_last c s = Some j -> (j < String.length s)%nat.
Proof.
  revert j. induction s as [|x s IH]; cbn; intros j H; [discriminate|].
  destruct (find_last c s) as [k|].
  - injection H as <-. specialize (IH k eq_refl). lia.
  - destruct (Ascii.eqb x c); [injection H as <-; lia | discriminate].
Qed.

Lemma substring_append_left (s t : string) :
  forall i n, (i + n <= String.length s)%nat ->
              substring i n (s ++ t) = substring i n s.
Proof.
  induction s as [|x s IH]; intros i n H; cbn [String.length] in H.
  - assert (i = O) by lia. assert (n = O) by lia. subst. now destruct t.
  - destruct i as [|i]; cbn.
    + destruct n as [|n]; [reflexivity|]. rewrite IH by lia. reflexivity.
    + apply IH. lia.
Qed.

Lemma substring_append_right (a b : string) (i n : nat) :
  substring (String.length a + i) n (a ++ b) = substring i n b.
Proof. induction a as [|x a IH]; cbn; [reflexivity | exact IH]. Qed.

(** Prose before the text that holds no opening brace, and prose after it
    that holds no closing brace, move the span and leave its content. *)
Lemma span_with_outer_prose (pre s post : string) :
  find_first lbrace pre = None -> find_last rbrace post = None ->
  match first_to_last_brace_span s with
  | Some m =>
      exists m', first_to_last_brace_span (pre ++ s ++ post) = Some m' /\
                 group (pre ++ s ++ post) m' = group s m
  | None => first_to_last_brace_span (pre ++ s ++ post) = None
  end.
Proof.
  intros Hpre Hpost. unfold first_to_last_brace_span.
  rewrite (find_first_append_none _ pre) by assumption.
  replace (pre ++ s ++ post) with ((pre ++ s) ++ post) by apply append_assoc.
  rewrite (find_last_append_none _ (pre ++ s)) by assumption.
  destruct (find_first lbrace s) as [i|] eqn:Hi.
  - rewrite (find_first_append_some _ s post i Hi). cbn [option_map].
    pose proof (find_first_bound _ _ _ Hi) as Bi.
    destruct (find_last rbrace s) as [j|] eqn:Hj.
    + rewrite (find_last_append_some _ pre s j Hj).
      pose proof (find_last_bound _ _ _ Hj) as Bj.
      destruct (Nat.ltb_spec i j) as [Hlt|Hge].
      * replace (Nat.ltb _ _) with true by (symmetry; apply Nat.ltb_lt; lia).
        eexists. split; [reflexivity|]. unfold group. cbn [fst snd].
        replace (String.length pre + j - (String.length pre + i))%nat
          with (j - i)%nat by lia.
        rewrite append_assoc, substring_append_right.
        apply substring_append_left. lia.
      * replace (Nat.ltb _ _) with false by (symmetry; apply Nat.ltb_ge; lia).
        reflexivity.
    + rewrite (find_last_append_none _ pre s Hj).
      destruct (find_last rbrace pre) as [p|] eqn:Hp; [|reflexivity].
      pose proof (find_last_bound _ _ _ Hp).
      replace (Nat.ltb _ _) with false by (symmetry; apply Nat.ltb_ge; lia).
      reflexivity.
  - rewrite (find_first_append_none _ s post Hi).
    destruct (find_first lbrace post) as [k|]; cbn [option_map]; [|
      now destruct (find_last rbrace s), (find_last rbrace (pre ++ s))].
    destruct (find_last rbrace (pre ++ s)) as [j|] eqn:Hj;
      [|now destruct (find_last rbrace s)].
    pose proof (find_last_bound _ _ _ Hj) as Bj. rewrite length_append in Bj.
    replace (Nat.ltb _ _) with false by (symmetry; apply Nat.ltb_ge; lia).
    now destruct (find_last rbrace s).
Qed.

(** Surrounding prose does not change the result, as long as no opening
    brace comes before the text and no closing brace after it. *)
Theorem extract_json_ignores_outer_prose (pre s post : string) :
  find_first lbrace pre = None ->
  find_last rbrace post = None ->
  extract_json (VStr (pre ++ s ++ post)) = extract_json (VStr s).
Proof.
  intros Hpre Hpost. rewrite !extract_json_span.
  pose proof (span_with_outer_prose pre s post Hpre Hpost) as H.
  destruct (first_to_last_brace_span s) as [m|].
  - destruct H as (m' & -> & ->). reflexivity.
  - now rewrite H.
Qed.

End ExtractorMore.

(** ** The score *)

Section ScoreMore.
Context {RT : Runtime}.

(** Whatever the record holds, a score that is computed lies between 0 and
    100: the progress bar never gets a value outside its range. *)
Theorem displayed_score_in_range (ats : value) (score : Z) :
  displayed_score ats = Ret score -> 0 <= score <= 100.
Proof.
  unfold displayed_score. intro H.
  destruct (py_get ats "ats_score" (VInt 0)) as [v|]; [|discriminate].
  cbn [bind] in H. destruct (py_int v) as [n|]; [|discriminate].
  injection H as <-. unfold py_max, py_min.
  destruct (Z.ltb_spec n 100);
    repeat match goal with
           | |- context [?a <? ?b] => destruct (Z.ltb_spec a b)
           end; lia.
Qed.

(** Clamping keeps the rating: a raw score above 100 rates as excellent, one
    below 0 as weak, like the score that is displayed for it. *)
Theorem rating_of_clamped_score (n : Z) :
  rating (py_max 0 (py_min 100 n)) = rating n.
Proof.
  unfold rating, py_max, py_min.
  destruct (Z.ltb_spec n 100);
    repeat match goal with
           | |- context [?a <? ?b] => destruct (Z.ltb_spec a b)
           end;
    repeat match goal with
           | |- context [?a <=? ?b] => destruct (Z.leb_spec a b)
           end; try reflexivity; lia.
Qed.

End ScoreMore.

(** ** The report *)

Section ReportMore.
Context {RT : Runtime}.

Lemma py_iter_iterable (v : value) :
  match py_iter v with
  | Ret _ => iterable v = true
  | Raise e => iterable v = false /\ e = TypeError
  end.
Proof. destruct v; cbn; auto. Qed.

Lemma add_sections_outcome (entries : list (string * value)) (sections : list string) :
  forall story,
    if forallb (field_iterable entries) sections
    then exists story', add_sections (VDict entries) sections story = Ret story'
    else add_sections (VDict entries) sections story = Raise TypeError.
Proof.
  unfold add_sections.
  induction sections as [|sec sections IH]; intro story; cbn [forallb for_each].
  - eauto.
  - unfold field_iterable at 1. cbn [py_get].
    destruct (dict_lookup entries sec) as [v|]; cbn [bind].
    + pose proof (py_iter_iterable v) as Hv.
      destruct (py_iter v) as [items|e]; cbn [bind].
      * rewrite Hv, for_each_append_items. cbn [bind andb]. apply IH.
      * destruct Hv as (-> & ->). reflexivity.
    + cbn [py_iter bind for_each andb]. apply IH.
Qed.

(** The report is built exactly when its data is a dict in which each of the
    five section fields is absent or iterable (a list, a text, a dict); a
    section field that holds a number, a boolean or [None] raises
    [TypeError], and data that is no dict raises [AttributeError]. *)
Theorem report_story_outcome (data : value) :
  match data with
  | VDict entries =>
      if forallb (field_iterable entries) report_sections
      then exists story, report_story data = Ret story
      else report_story data = Raise TypeError
  | _ => report_story data = Raise AttributeError
  end.
Proof.
  destruct data as [| | | | | |entries]; try reflexivity.
  unfold report_story. cbn [py_get].
  destruct (dict_lookup entries "ats_score") as [score|]; cbn [bind];
    apply (add_sections_outcome entries report_sections).
Qed.

Lemma report_story_of_agreeing_records (entries entries' : list (string * value)) :
  (forall field, In field ("ats_score" :: report_sections) ->
                 dict_lookup entries field = dict_lookup entries' field) ->
  report_story (VDict entries) = report_story (VDict entries').
Proof.
  intro H. unfold report_story, py_get.
  rewrite (H "ats_score") by now left.
  destruct (dict_lookup entries' "ats_score"); cbn [bind];
    apply for_each_ext; intros section story Hin;
    rewrite (H section) by (now right); reflexivity.
Qed.

(** The report depends on six fields only: records that agree on
    [ats_score] and on the five section fields have the same report. *)
Theorem report_story_reads_six_fields (entries entries' : list (string * value)) :
  (forall field, In field ("ats_score" :: report_sections) ->
                 dict_lookup entries field = dict_lookup entries' field) ->
  report_story (VDict entries) = report_story (VDict entries').
Proof. apply report_story_of_agreeing_records. Qed.

End ReportMore.

(** ** The remote requests *)

Section RequestsMore.
Context {RT : Runtime}.
Variable create : request -> outcome completion.

(** The full analysis returns the decoding of an object when the service
    answers, the first choice has a text, and the text is that object between
    a part without opening brace and a part without closing brace.  It
    returns a non-empty record in that case only: in every other situation (a
    failure, no choice, no text, no such object, a malformed one, an empty
    one) the result is the empty record. *)
Theorem full_analysis_record (resume_text jd_text : string) :
  decodes_objects RT ->
  (forall text others before inside after entries,
     create (full_analysis_request resume_text jd_text)
       = Ret {| choices := Some text :: others |} ->
     text = before ++ String lbrace (inside ++ String rbrace "") ++ after ->
     find_first lbrace before = None ->
     find_last rbrace after = None ->
     json_loads (String lbrace (inside ++ String rbrace "")) = Ret (VDict entries) ->
     groq_full_analysis create resume_text jd_text = Ret (VDict entries)) /\
  (groq_full_analysis create resume_text jd_text = Ret (VDict []) \/
   exists text others before inside after k v entries,
     create (full_analysis_request resume_text jd_text)
       = Ret {| choices := Some text :: others |} /\
     text = before ++ String lbrace (inside ++ String rbrace "") ++ after /\
     find_first lbrace before = None /\
     find_last rbrace after = None /\
     json_loads (String lbrace (inside ++ String rbrace ""))
       = Ret (VDict ((k, v) :: entries)) /\
     groq_full_analysis create resume_text jd_text = Ret (VDict ((k, v) :: entries))).
Proof.
  intro Hobj. unfold groq_full_analysis, safe_groq_call.
  fold (full_analysis_request resume_text jd_text).
  split.
  - intros text others before inside after entries Hc -> Hbefore Hafter Hv.
    destruct (span_of_embedded_object before inside after Hbefore Hafter)
      as (m & Hm & Hg). cbv zeta in Hm, Hg.
    rewrite Hc. cbn [bind choices].
    rewrite extract_json_span, Hm, Hg, Hv. cbn [try_except bind].
    now destruct entries.
  - destruct (create (full_analysis_request resume_text jd_text)) as [[cs]|e] eqn:Hc;
      [|now left].
    cbn [bind choices]. destruct cs as [|[text|] others]; try (now left).
    cbn [bind]. rewrite extract_json_span.
    destruct (first_to_last_brace_span text) as [m|] eqn:Hm; [|now left].
    destruct (span_is_embedded_object text m Hm)
      as (before & inside & after & Htext & Hg & Hbefore & Hafter).
    rewrite Hg in Htext |- *.
    destruct (json_loads (String lbrace (inside ++ String rbrace ""))) as [w|e] eqn:Hw;
      [|now left].
    destruct (Hobj _ _ Hw) as (entries & ->). cbn [try_except bind].
    destruct entries as [|[k v] entries]; [now left|].
    right. exists text, others, before, inside, after, k, v, entries. auto 10.
Qed.

End RequestsMore.

(** ** Text recognition *)

Section Recognition.
Variable image : Type.
Variable convert_from_bytes : string -> outcome (list image).
Variable image_to_string : image -> outcome string.

Lemma recognize_pages_length (pages : list image) :
  forall texts, recognize_pages image image_to_string pages = Ret texts ->
                length texts = length pages.
Proof.
  induction pages as [|p pages IH]; cbn; intros texts H.
  - now injection H as <-.
  - destruct (image_to_string p) as [t|]; [|discriminate]. cbn [bind] in H.
    destruct (recognize_pages image image_to_string pages) as [ts|]; [|discriminate].
    injection H as <-. cbn. now rewrite (IH ts eq_refl).
Qed.

Lemma recognize_pages_append (before after : list image) :
  recognize_pages image image_to_string (before ++ after) =
  bind (recognize_pages image image_to_string before) (fun texts =>
  bind (recognize_pages image image_to_string after) (fun texts' =>
  Ret (texts ++ texts')%list)).
Proof.
  induction before as [|p before IH]; cbn [app recognize_pages bind].
  - now destruct (recognize_pages image image_to_string after).
  - destruct (image_to_string p) as [t|]; [|reflexivity]. cbn [bind]. rewrite IH.
    destruct (recognize_pages image image_to_string before) as [ts|]; [|reflexivity].
    cbn [bind]. now destruct (recognize_pages image image_to_string after).
Qed.

Lemma length_concat (sep : string) (texts : list string) :
  String.length (String.concat sep texts) =
  (list_sum (map String.length texts) + String.length sep * (length texts - 1))%nat.
Proof.
  induction texts as [|t texts IH]; [cbn; lia|].
  destruct texts as [|t' texts].
  - cbn. lia.
  - change (String.concat sep (t :: t' :: texts))
      with (t ++ sep ++ String.concat sep (t' :: texts)).
    rewrite !length_append, IH. cbn [map list_sum length].
    replace (S (S (length texts)) - 1)%nat with (S (length texts - 0)) by lia.
    replace (S (length texts) - 1)%nat with (length texts - 0)%nat by lia.
    rewrite Nat.mul_succ_r. unfold list_sum. cbn [fold_right]. lia.
Qed.

(** Pages that are each recognized give their texts, page by page. *)
Lemma recognize_pages_each (pages : list image) (texts : list string) :
  Forall2 (fun page text => image_to_string page = Ret text) pages texts ->
  recognize_pages image image_to_string pages = Ret texts.
Proof.
  induction 1 as [|p t pages texts Hp _ IH]; cbn [recognize_pages];
    [reflexivity|].
  now rewrite Hp, IH.
Qed.

(** When the recognition gives a text for each page, the recognized text of
    the document is these texts, the text of the first page first, with one
    line break between two of them and nothing else: its length is the sum of
    the lengths of the page texts plus the number of pages less one.  A
    document without pages gives the empty text. *)
Theorem extract_text_from_pdf_joins_pages
    (pdf_file : string) (pages : list image) (texts : list string) :
  convert_from_bytes pdf_file = Ret pages ->
  Forall2 (fun page text => image_to_string page = Ret text) pages texts ->
  extract_text_from_pdf image convert_from_bytes image_to_string pdf_file
    = Ret (String.concat nl texts) /\
  String.length (String.concat nl texts) =
    (list_sum (map String.length texts) + (length pages - 1))%nat /\
  (pages = [] -> String.concat nl texts = "").
Proof.
  intros Hc Heach. pose proof (recognize_pages_each pages texts Heach) as Hr.
  unfold extract_text_from_pdf. rewrite Hc. cbn [bind]. rewrite Hr.
  pose proof (recognize_pages_length pages texts Hr) as Hlen.
  repeat split.
  - rewrite length_concat, Hlen. cbn. lia.
  - intros ->. destruct texts; [reflexivity | discriminate].
Qed.

(** When the recognition of a page raises, the extraction raises the same
    exception, whatever the pages after it are; no partial text is
    returned. *)
Theorem extract_text_from_pdf_fails_with_page
    (pdf_file : string) (before after : list image) (p : image)
    (texts : list string) (e : exn) :
  convert_from_bytes pdf_file = Ret (before ++ p :: after)%list ->
  recognize_pages image image_to_string before = Ret texts ->
  image_to_string p = Raise e ->
  extract_text_from_pdf image convert_from_bytes image_to_string pdf_file = Raise e.
Proof.
  intros Hc Hb Hp. unfold extract_text_from_pdf. rewrite Hc. cbn [bind].
  rewrite recognize_pages_append, Hb. cbn [bind recognize_pages]. now rewrite Hp.
Qed.

End Recognition.

(** ** The "Analyze" action *)

Section Strip.

Lemma drop_whitespace_all (chars : list string) :
  forallb is_whitespace chars = true -> drop_whitespace chars = [].
Proof.
  induction chars as [|c chars IH]; cbn [forallb drop_whitespace]; [reflexivity|].
  destruct (is_whitespace c); [exact IH | discriminate].
Qed.

Lemma drop_whitespace_some (chars : list string) :
  forallb is_whitespace chars = false ->
  exists c rest, drop_whitespace chars = c :: rest /\
                 is_whitespace c = false /\ In c chars.
Proof.
  induction chars as [|c chars IH]; cbn [forallb drop_whitespace In]; [discriminate|].
  destruct (is_whitespace c) eqn:Hc.
  - intro H. destruct (IH H) as (c' & rest & -> & Hc' & Hin). eauto 6.
  - intros _. exists c, chars. auto.
Qed.

Lemma drop_whitespace_last (chars : list string) (c : string) :
  is_whitespace c = false ->
  drop_whitespace (chars ++ [c]) = (drop_whitespace chars ++ [c])%list.
Proof.
  intro Hc. induction chars as [|x chars IH]; cbn [app drop_whitespace].
  - now rewrite Hc.
  - destruct (is_whitespace x); [exact IH | reflexivity].
Qed.

Lemma utf8_chars_nonempty (s : string) (c : string) :
  In c (utf8_chars s) -> c <> "".
Proof.
  revert c. induction s as [|x s IH]; cbn; intros c H; [contradiction|].
  destruct (utf8_chars s) as [|[|d t] rest].
  - destruct H as [<-|[]]. discriminate.
  - destruct H as [<-|H]; [discriminate|]. apply IH. exact H.
  - destruct (is_continuation d).
    + destruct H as [<-|H]; [discriminate|]. apply IH. now right.
    + destruct H as [<-|H]; [discriminate|]. apply IH. exact H.
Qed.

(** A text strips to the empty text exactly when all its characters are
    white space. *)
Lemma py_strip_empty (s : string) :
  String.eqb (py_strip s) "" = forallb is_whitespace (utf8_chars s).
Proof.
  unfold py_strip. destruct (forallb is_whitespace (utf8_chars s)) eqn:H.
  - now rewrite (drop_whitespace_all _ H).
  - destruct (drop_whitespace_some _ H) as (c & rest & -> & Hc & Hin).
    cbn [rev]. rewrite (drop_whitespace_last _ c Hc), rev_app_distr. cbn [rev app].
    pose proof (utf8_chars_nonempty s c Hin) as Hne.
    destruct c as [|x c]; [congruence|].
    cbn [String.concat]. now destruct (rev (drop_whitespace (rev rest))).
Qed.

End Strip.

Section Action.
Context {RT : Runtime}.
Variable create : request -> outcome completion.
Variable recognize_text : string -> outcome string.
Variable build_document : list flowable -> outcome string.

(** Without a press of the button nothing is displayed, whether a file is
    uploaded or not.  With it, a missing file or a job description made of
    white space only displays the one error message and starts nothing; a
    file and a job description with some other character start the
    analysis. *)
Theorem on_analyze_cases (file jd_text : string) (page : list ui_event) :
  let message := StError (VStr "Please upload resume and job description") in
  (forall uploaded_file,
     on_analyze create recognize_text build_document false uploaded_file jd_text page
       = (Ret tt, page)) /\
  on_analyze create recognize_text build_document true None jd_text page
    = (Ret tt, (page ++ [message])%list) /\
  (forallb is_whitespace (utf8_chars jd_text) = true ->
   on_analyze create recognize_text build_document true (Some file) jd_text page
     = (Ret tt, (page ++ [message])%list)) /\
  (forallb is_whitespace (utf8_chars jd_text) = false ->
   on_analyze create recognize_text build_document true (Some file) jd_text page
     = analyze_resume create recognize_text build_document file jd_text page).
Proof.
  cbv zeta. unfold on_analyze, truthy.
  split; [intros uploaded_file; reflexivity|]. split; [reflexivity|].
  split; intro H; rewrite py_strip_empty, H; reflexivity.
Qed.

(** With the service down and the text of the file recognized, the page
    shows a score of 0 rated weak, and then the run fails with the exception
    of the service at the explanation request. *)
Theorem analyze_resume_service_down
    (e : exn) (file text jd_text : string) (page : list ui_event) :
  (forall req, create req = Raise e) ->
  recognize_text file = Ret text ->
  analyze_resume create recognize_text build_document file jd_text page =
  (Raise e,
   (page ++ [ StSubheader "🧠 ATS Score";
              StProgress 0;
              StMarkdown "0% — ❌ Weak Match";
              StSubheader "📌 ATS Score Explanation" ])%list).
Proof.
  intros Hdown Htext.
  assert (Hcall : forall m t, safe_groq_call create m t = Raise e).
  { intros m t. unfold safe_groq_call. now rewrite Hdown. }
  assert (Hfull : groq_full_analysis create text jd_text = Ret (VDict [])).
  { unfold groq_full_analysis. now rewrite Hcall. }
  unfold analyze_resume.
  unfold ui_bind at 1. unfold call at 1. rewrite Htext.
  unfold ui_bind at 1. unfold call at 1. rewrite Hfull.
  assert (Hex : groq_ats_explanation create text jd_text 0 = Raise e)
    by apply Hcall.
  unfold show_analysis.
  change (displayed_score (VDict [])) with (@Ret Z 0).
  unfold ui_bind at 1. unfold call at 1. cbv beta iota zeta.
  unfold ui_bind, call, show. rewrite Hex.
  now rewrite <- !app_assoc.
Qed.

Lemma strings_of_non_text (items : list value) :
  forallb is_text items = false -> strings_of items = Raise TypeError.
Proof.
  induction items as [|v items IH]; cbn; [discriminate|].
  destruct v; cbn; try reflexivity. intro H. now rewrite (IH H).
Qed.

(** When [skills_found] is a list with an item that is no text, the page
    raises [TypeError] at the first line of the skills block: the score, the
    explanation and the summary are displayed, the block is opened and closed
    empty.  (The report would print the item.) *)
Theorem skills_with_non_text_item_raises
    (resume_text jd_text : string) (ats explanation summary : value)
    (score : Z) (items : list value) (page : list ui_event) :
  displayed_score ats = Ret score ->
  groq_ats_explanation create resume_text jd_text score = Ret explanation ->
  groq_summary create resume_text jd_text = Ret summary ->
  py_get ats "skills_found" (VList []) = Ret (VList items) ->
  forallb is_text items = false ->
  show_analysis create build_document resume_text jd_text ats page =
  (Raise TypeError,
   (page ++ [ StSubheader "🧠 ATS Score";
              StProgress score;
              StMarkdown (decimal score ++ "% — " ++ rating score);
              StSubheader "📌 ATS Score Explanation";
              StInfo explanation;
              StSubheader "📝 AI Summary";
              StInfo summary;
              StExpanderOpen "✔ Skills / ❌ Missing / 💪 Strengths / ⚠ Weaknesses" true;
              StExpanderClose ])%list).
Proof.
  intros Hscore He Hs Hget Hitems.
  unfold show_analysis. rewrite Hscore.
  unfold ui_bind at 1. unfold call at 1. cbv beta iota zeta.
  rewrite He, Hs, Hget.
  unfold py_join. cbn [bind py_iter]. rewrite (strings_of_non_text items Hitems).
  unfold ui_bind, call, show, expander. cbn [bind].
  now rewrite <- !app_assoc.
Qed.

End Action.

(** ** Runs of the page *)

Section Runs.
Context {RT : Runtime}.
Variable create : request -> outcome completion.
Variable recognize_text : string -> outcome string.
Variable build_document : list flowable -> outcome string.

Lemma ui_bind_returns {A B : Type} (m : ui A) (k : A -> ui B)
    (page page' : list ui_event) (b : B) :
  ui_bind m k page = (Ret b, page') ->
  exists a mid, m page = (Ret a, mid) /\ k a mid = (Ret b, page').
Proof.
  unfold ui_bind. destruct (m page) as [[a|e] mid]; [eauto | discriminate].
Qed.

(** A run that completes ends with the download button of the report, and
    the bytes it offers are those the document builder returned for the story
    of the analysed record. *)
Theorem completed_run_offers_the_report
    (resume_text jd_text : string) (ats : value) (page page' : list ui_event) :
  show_analysis create build_document resume_text jd_text ats page = (Ret tt, page') ->
  exists story pdf before,
    report_story ats = Ret story /\
    build_document story = Ret pdf /\
    page' = (before ++ [StDownloadButton "📥 Download ATS PDF Report" (Bytes pdf)
                                         "ATS_Report.pdf"])%list.
Proof.
  unfold show_analysis. intro H.
  repeat (apply ui_bind_returns in H; destruct H as (? & ? & ? & H); cbv beta in H).
  match goal with
  | Hpdf : call (generate_pdf_report build_document ats) _ = (Ret ?pdf, ?mid) |- _ =>
      unfold call, generate_pdf_report in Hpdf;
      injection Hpdf as Hpdf <-;
      destruct (report_story ats) as [story|] eqn:Hstory; [|discriminate Hpdf];
      cbn [bind] in Hpdf;
      unfold show in H; injection H as <-;
      exists story, pdf; eauto
  end.
Qed.

(** *** Expanders are closed *)

Lemma nesting_append (a b : list ui_event) :
  forall d, nesting (a ++ b) d =
            match nesting a d with
            | Some d' => nesting b d'
            | None => None
            end.
Proof.
  induction a as [|e a IH]; intro d; [reflexivity|].
  destruct e; cbn [app nesting]; try apply IH.
  destruct d; [reflexivity | apply IH].
Qed.

Lemma balanced_call {A : Type} (m : outcome A) : balanced (call m).
Proof. intro page. exists []. cbn. now rewrite app_nil_r. Qed.

Lemma balanced_ret {A : Type} (a : A) : balanced (ui_ret a).
Proof. intro page. exists []. cbn. now rewrite app_nil_r. Qed.

Lemma balanced_show (e : ui_event) :
  match e with
  | StExpanderOpen _ _ | StExpanderClose => False
  | _ => True
  end ->
  balanced (show e).
Proof.
  intros He page. exists [e]. split; [reflexivity|].
  intro d. destruct e; cbn; tauto.
Qed.

Lemma balanced_bind {A B : Type} (m : ui A) (k : A -> ui B) :
  balanced m -> (forall a, balanced (k a)) -> balanced (ui_bind m k).
Proof.
  intros Hm Hk page. unfold ui_bind.
  destruct (Hm page) as (added & Hadded & Hd).
  destruct (m page) as [[a|e] page1]; cbn [snd] in Hadded; subst page1.
  - destruct (Hk a (page ++ added)%list) as (more & Hmore & Hd').
    exists (added ++ more)%list. rewrite Hmore, app_assoc. split; [reflexivity|].
    intro d. now rewrite nesting_append, Hd.
  - now exists added.
Qed.

Lemma balanced_expander {A : Type} (label : string) (expanded : bool) (body : ui A) :
  balanced body -> balanced (expander label expanded body).
Proof.
  intros Hbody page. unfold expander.
  destruct (Hbody (page ++ [StExpanderOpen label expanded])%list)
    as (added & Hadded & Hd).
  destruct (body _) as [r page1]. cbn [snd] in *. subst page1.
  exists ([StExpanderOpen label expanded] ++ added ++ [StExpanderClose])%list.
  split; [now rewrite <- !app_assoc|].
  intro d. cbn [app nesting]. now rewrite nesting_append, Hd.
Qed.

Lemma balanced_for_each {A : Type} (l : list A) (body : A -> ui unit) :
  (forall x, balanced (body x)) -> balanced (ui_for_each l body).
Proof.
  intro Hbody. induction l as [|x l IH]; cbn [ui_for_each].
  - apply balanced_ret.
  - apply balanced_bind; [apply Hbody | intros _; exact IH].
Qed.

Ltac page_balanced :=
  repeat first
    [ apply balanced_call | apply balanced_ret
    | apply balanced_show; exact I
    | apply balanced_expander
    | apply balanced_for_each; intro
    | apply balanced_bind; [|intro] ].

(** However a run ends, completed or raised at any step, what it displayed
    comes after what was on the page, and every expander it opened has been
    closed: the depth of open expanders is what it was before the run. *)
Theorem analyze_resume_closes_expanders
    (file jd_text : string) (page : list ui_event) (depth : nat) :
  exists added,
    snd (analyze_resume create recognize_text build_document file jd_text page)
      = (page ++ added)%list /\
    nesting added depth = Some depth.
Proof.
  assert (H : balanced (analyze_resume create recognize_text build_document
                          file jd_text)).
  { unfold analyze_resume, show_analysis, show_career. page_balanced. }
  destruct (H page) as (added & Hadded & Hd). eauto.
Qed.

(** *** The career block *)

Lemma ui_for_each_show (items : list value) (f : value -> ui_event)
    (page : list ui_event) :
  ui_for_each items (fun x => show (f x)) page = (Ret tt, (page ++ map f items)%list).
Proof.
  revert page. induction items as [|x items IH]; intro page; cbn [ui_for_each map].
  - cbn. now rewrite app_nil_r.
  - unfold ui_bind, show at 1. rewrite IH, <- app_assoc. reflexivity.
Qed.

Lemma bind_show {B : Type} (e : ui_event) (k : unit -> ui B) (page : list ui_event) :
  ui_bind (show e) k page = k tt (page ++ [e])%list.
Proof. reflexivity. Qed.

Lemma bind_call {A B : Type} (m : outcome A) (k : A -> ui B) (page : list ui_event) :
  ui_bind (call m) k page =
  match m with
  | Ret a => k a page
  | Raise e => (Raise e, page)
  end.
Proof. unfold ui_bind, call. now destruct m. Qed.

Lemma bind_for_each_show {B : Type} (items : list value) (f : value -> ui_event)
    (k : unit -> ui B) (page : list ui_event) :
  ui_bind (ui_for_each items (fun x => show (f x))) k page =
  k tt (page ++ map f items)%list.
Proof. unfold ui_bind. now rewrite ui_for_each_show. Qed.




Lemma bind_expander {A B : Type} (label : string) (expanded : bool) (body : ui A)
    (k : A -> ui B) (page mid : list ui_event) (a : A) :
  body (page ++ [StExpanderOpen label expanded])%list = (Ret a, mid) ->
  ui_bind (expander label expanded body) k page = k a (mid ++ [StExpanderClose])%list.
Proof. intro H. unfold ui_bind, expander. now rewrite H. Qed.

(** The page never shows [ats_summary]: records that agree on the seven
    fields [ats_score], [skills_found], [skills_missing], [strengths],
    [weaknesses], [resume_rewrite] and [improvements] are displayed and
    reported alike. *)
Theorem show_analysis_reads_seven_fields
    (resume_text jd_text : string) (entries entries' : list (string * value))
    (page : list ui_event) :
  (forall field,
     In field ["ats_score"; "skills_found"; "skills_missing"; "strengths";
               "weaknesses"; "resume_rewrite"; "improvements"] ->
     dict_lookup entries field = dict_lookup entries' field) ->
  show_analysis create build_document resume_text jd_text (VDict entries) page =
  show_analysis create build_document resume_text jd_text (VDict entries') page.
Proof.
  intro H.
  assert (Hstory : report_story (VDict entries) = report_story (VDict entries')).
  { apply report_story_of_agreeing_records. intros field Hin. apply H.
    cbn in Hin.
    repeat (destruct Hin as [<-|Hin]; [cbn; auto 10|]). contradiction. }
  unfold show_analysis, displayed_score, generate_pdf_report, py_get.
  rewrite Hstory.
  rewrite (H "ats_score"), (H "skills_found"), (H "skills_missing"),
    (H "strengths"), (H "weaknesses"), (H "resume_rewrite") by (cbn; auto 10).
  reflexivity.
Qed.

(** The layout of the page of a run that completes: the score with its
    rating, the explanation, the summary, the skills block with the two
    joined lines and one event per strength and per weakness, the rewrite
    block, the career block, and the download button of the report. *)
Theorem show_analysis_page
    (resume_text jd_text : string) (ats career : value) (score : Z)
    (explanation summary rewrite why : value) (found missing pdf : string)
    (strengths weaknesses roles skills tips : list value) (page : list ui_event) :
  displayed_score ats = Ret score ->
  groq_ats_explanation create resume_text jd_text score = Ret explanation ->
  groq_summary create resume_text jd_text = Ret summary ->
  bind (py_get ats "skills_found" (VList [])) (py_join ", ") = Ret found ->
  bind (py_get ats "skills_missing" (VList [])) (py_join ", ") = Ret missing ->
  field_items ats "strengths" = Ret strengths ->
  field_items ats "weaknesses" = Ret weaknesses ->
  py_get ats "resume_rewrite" (VStr "") = Ret rewrite ->
  groq_career_recommendation create resume_text jd_text = Ret career ->
  field_items career "recommended_roles" = Ret roles ->
  py_get career "why_fit" (VStr "") = Ret why ->
  field_items career "skills_to_improve" = Ret skills ->
  field_items career "resume_upgrade_tips" = Ret tips ->
  generate_pdf_report build_document ats = Ret pdf ->
  show_analysis create build_document resume_text jd_text ats page =
  (Ret tt,
   (page
    ++ [ StSubheader "🧠 ATS Score";
         StProgress score;
         StMarkdown (decimal score ++ "% — " ++ rating score);
         StSubheader "📌 ATS Score Explanation";
         StInfo explanation;
         StSubheader "📝 AI Summary";
         StInfo summary;
         StExpanderOpen "✔ Skills / ❌ Missing / 💪 Strengths / ⚠ Weaknesses" true;
         StSuccess (VStr ("Skills Found: " ++ found));
         StError (VStr ("Missing Skills: " ++ missing));
         StSubheader "Strengths" ]
    ++ map StSuccess strengths
    ++ [ StSubheader "Weaknesses" ]
    ++ map StWarning weaknesses
    ++ [ StExpanderClose;
         StExpanderOpen "✍ AI Resume Rewrite (ATS-friendly)" false;
         StTextArea "Rewritten Resume" rewrite 300;
         StDownloadButton "Download Rewritten Resume" (Text rewrite)
                          "rewritten_resume.txt";
         StExpanderClose;
         StExpanderOpen "🎯 AI Career Fit Recommendations" true;
         StSubheader "Recommended Roles" ]
    ++ map StSuccess roles
    ++ [ StSubheader "Why you fit";
         StInfo why;
         StSubheader "Skills to improve" ]
    ++ map StWarning skills
    ++ [ StSubheader "Resume upgrade tips" ]
    ++ map StInfo tips
    ++ [ StExpanderClose;
         StDownloadButton "📥 Download ATS PDF Report" (Bytes pdf) "ATS_Report.pdf" ])%list).
Proof.
  intros Hscore He Hs Hfound Hmissing Hstrengths Hweaknesses Hrewrite
         Hcareer Hroles Hwhy Hskills Htips Hpdf.
  unfold field_items in *.
  unfold show_analysis. rewrite bind_call, Hscore. cbv zeta.
  rewrite !bind_show, bind_call, He, bind_show, bind_show, bind_call, Hs, bind_show.
  erewrite bind_expander.
  2:{ rewrite bind_call, Hfound, bind_show, bind_call, Hmissing, !bind_show,
        bind_call, Hstrengths, bind_for_each_show, bind_show, bind_call,
        Hweaknesses, ui_for_each_show. reflexivity. }
  erewrite bind_expander.
  2:{ rewrite bind_call, Hrewrite, bind_show. reflexivity. }
  rewrite bind_call, Hcareer.
  unfold show_career. erewrite bind_expander.
  2:{ rewrite bind_show, bind_call, Hroles, bind_for_each_show, bind_show,
        bind_call, Hwhy, !bind_show, bind_call, Hskills, bind_for_each_show,
        bind_show, bind_call, Htips, ui_for_each_show. reflexivity. }
  rewrite bind_call, Hpdf. unfold show.
  f_equal. repeat (rewrite <- ?app_assoc; cbn [app]). reflexivity.
Qed.

End Runs.

(** ** The further properties at concrete inputs *)

Lemma extract_json_none_or_dict_witness :
  extract_json (VStr (dquote "Sure: {'a': 1}")) = Ret (VDict [("a", VInt 1)]) /\
  (VDict [("a", VInt 1)] = VNone \/ exists entries, VDict [("a", VInt 1)] = VDict entries).
Proof.
  split; [vm_compute; reflexivity|].
  apply (extract_json_none_or_dict (VStr (dquote "Sure: {'a': 1}"))
           (VDict [("a", VInt 1)]) reference_decodes_objects).
  vm_compute. reflexivity.
Defined.

Lemma extract_json_ignores_outer_prose_witness :
  extract_json (VStr ("Result } first: " ++ dquote "{'a': {'b': 2}}" ++ " { done"))
  = extract_json (VStr (dquote "{'a': {'b': 2}}")).
Proof.
  apply (extract_json_ignores_outer_prose
           "Result } first: " (dquote "{'a': {'b': 2}}") " { done");
    reflexivity.
Defined.

Lemma displayed_score_in_range_witness :
  displayed_score (VDict [("ats_score", VStr "250")]) = Ret 100 /\ 0 <= 100 <= 100.
Proof.
  split; [reflexivity|].
  apply (displayed_score_in_range (VDict [("ats_score", VStr "250")]) 100).
  reflexivity.
Defined.

Lemma report_story_reads_six_fields_witness :
  report_story (VDict [("ats_summary", VStr "Good"); ("strengths", VList [VStr "SQL"])])
  = report_story (VDict [("strengths", VList [VStr "SQL"]); ("resume_rewrite", VInt 3)]).
Proof.
  apply (report_story_reads_six_fields
           [("ats_summary", VStr "Good"); ("strengths", VList [VStr "SQL"])]
           [("strengths", VList [VStr "SQL"]); ("resume_rewrite", VInt 3)]).
  intros field Hin. cbn in Hin.
  repeat (destruct Hin as [<-|Hin]; [reflexivity|]). contradiction.
Defined.

Lemma full_analysis_record_witness :
  groq_full_analysis (answering (dquote "Sure: {'ats_score': 72} } ok")) "resume" "job"
  = Ret (VDict []) /\
  groq_full_analysis (answering (dquote "Sure } {'ats_score': 72} { ok")) "resume" "job"
  = Ret (VDict [("ats_score", VInt 72)]).
Proof.
  split; [vm_compute; reflexivity|].
  destruct (full_analysis_record
              (answering (dquote "Sure } {'ats_score': 72} { ok")) "resume" "job"
              reference_decodes_objects) as (Hdecoded & _).
  apply (Hdecoded (dquote "Sure } {'ats_score': 72} { ok") []
                  "Sure } " (dquote "'ats_score': 72") " { ok");
    vm_compute; reflexivity.
Defined.

Lemma extract_text_from_pdf_joins_pages_witness :
  extract_text_from_pdf string (fun _ => Ret ["1"; "2"])
    (fun page => Ret ("page " ++ page)) "%PDF"
  = Ret ("page 1" ++ nl ++ "page 2").
Proof.
  apply (extract_text_from_pdf_joins_pages
           string (fun _ => Ret ["1"; "2"]) (fun page => Ret ("page " ++ page))
           "%PDF" ["1"; "2"] ["page 1"; "page 2"]);
    [reflexivity | repeat constructor].
Defined.

Lemma extract_json_decodes_first_to_last_brace_witness :
  first_to_last_brace_span (dquote "Sure: {'a': 1} } done") = Some (6, 10)%nat /\
  exists before inside after,
    dquote "Sure: {'a': 1} } done"
      = before ++ group (dquote "Sure: {'a': 1} } done") (6, 10)%nat ++ after /\
    group (dquote "Sure: {'a': 1} } done") (6, 10)%nat
      = String lbrace (inside ++ String rbrace "") /\
    find_first lbrace before = None /\
    find_last rbrace after = None.
Proof.
  split; [reflexivity|].
  destruct (@extract_json_decodes_first_to_last_brace ReferenceRuntime
              (dquote "Sure: {'a': 1} } done")) as (_ & _ & Hspan & _).
  apply Hspan. reflexivity.
Defined.

Lemma extract_text_from_pdf_fails_with_page_witness :
  extract_text_from_pdf string (fun _ => Ret ["page one"; ""; "page three"])
    (fun p => if String.eqb p "" then Raise ValueError else Ret p) "%PDF"
  = Raise ValueError.
Proof.
  apply (extract_text_from_pdf_fails_with_page
           string (fun _ => Ret ["page one"; ""; "page three"])
           (fun p => if String.eqb p "" then Raise ValueError else Ret p)
           "%PDF" ["page one"] ["page three"] "" ["page one"] ValueError);
    reflexivity.
Defined.

Lemma on_analyze_cases_witness :
  on_analyze (answering "unused") Ret (building "%PDF") true (Some "%PDF")
    ("  " ++ nl) [] =
  (Ret tt, [StError (VStr "Please upload resume and job description")]).
Proof.
  destruct (on_analyze_cases (answering "unused") Ret (building "%PDF")
              "%PDF" ("  " ++ nl) []) as (_ & _ & Hblank & _).
  apply Hblank. reflexivity.
Defined.

Lemma analyze_resume_service_down_witness :
  fst (analyze_resume (failing (ClientError "rate limit")) Ret (building "%PDF")
         "resume" "job" []) = Raise (ClientError "rate limit").
Proof.
  rewrite (analyze_resume_service_down
             (failing (ClientError "rate limit")) Ret (building "%PDF")
             (ClientError "rate limit") "resume" "resume" "job" []
             (fun _ => eq_refl) eq_refl).
  reflexivity.
Defined.

Lemma skills_with_non_text_item_raises_witness :
  fst (show_analysis (answering "fine") (building "%PDF") "resume" "job"
         (VDict [("skills_found", VList [VStr "SQL"; VInt 3])]) []) = Raise TypeError.
Proof.
  rewrite (skills_with_non_text_item_raises
             (answering "fine") (building "%PDF") "resume" "job"
             (VDict [("skills_found", VList [VStr "SQL"; VInt 3])])
             (VStr "fine") (VStr "fine") 0 [VStr "SQL"; VInt 3] []
             eq_refl eq_refl eq_refl eq_refl eq_refl).
  reflexivity.
Defined.

Lemma completed_run_offers_the_report_witness :
  exists story pdf before,
    report_story (VDict []) = Ret story /\
    building "%PDF" story = Ret pdf /\
    snd (show_analysis (answering "fine") (building "%PDF") "resume" "job" (VDict []) [])
    = (before ++ [StDownloadButton "📥 Download ATS PDF Report" (Bytes pdf)
                                   "ATS_Report.pdf"])%list.
Proof.
  apply (completed_run_offers_the_report
           (answering "fine") (building "%PDF") "resume" "job" (VDict []) []).
  vm_compute. reflexivity.
Defined.

Lemma show_analysis_reads_seven_fields_witness :
  show_analysis (answering "fine") (building "%PDF") "resume" "job"
    (VDict [("ats_summary", VStr "A close match."); ("ats_score", VInt 72)]) [] =
  show_analysis (answering "fine") (building "%PDF") "resume" "job"
    (VDict [("ats_score", VInt 72)]) [].
Proof.
  apply (show_analysis_reads_seven_fields
           (answering "fine") (building "%PDF") "resume" "job"
           [("ats_summary", VStr "A close match."); ("ats_score", VInt 72)]
           [("ats_score", VInt 72)] []).
  intros field Hin. cbn in Hin.
  repeat (destruct Hin as [<-|Hin]; [reflexivity|]). contradiction.
Defined.

Lemma show_analysis_page_witness :
  fst (show_analysis
         (answering (dquote "{'recommended_roles': ['Analyst'], 'why_fit': 'SQL'}"))
         (building "%PDF") "resume" "job"
         (VDict [("ats_score", VInt 72); ("skills_found", VList [VStr "SQL"]);
                 ("strengths", VList [VStr "Clear"; VStr "Short"])]) [])
  = Ret tt.
Proof.
  rewrite (show_analysis_page
             (answering (dquote "{'recommended_roles': ['Analyst'], 'why_fit': 'SQL'}"))
             (building "%PDF") "resume" "job"
             (VDict [("ats_score", VInt 72); ("skills_found", VList [VStr "SQL"]);
                     ("strengths", VList [VStr "Clear"; VStr "Short"])])
             (VDict [("recommended_roles", VList [VStr "Analyst"]);
                     ("why_fit", VStr "SQL")])
             72
             (VStr (dquote "{'recommended_roles': ['Analyst'], 'why_fit': 'SQL'}"))
             (VStr (dquote "{'recommended_roles': ['Analyst'], 'why_fit': 'SQL'}"))
             (VStr "") (VStr "SQL") "SQL" "" "%PDF"
             [VStr "Clear"; VStr "Short"] [] [VStr "Analyst"] [] [] [])
    by (vm_compute; reflexivity).
  reflexivity.
Defined.
